(** * nem-nodejs-bot: co-signing pipeline and block auditor

    A shallow embedding of three source files of the bot:

    - [service.js] (the blockchain service: transaction hash and amount
      readers),
    - [multisig-cosignatory.js] (the automatic co-signing handler,
      verification and signing),
    - [blocks-auditor.js] (block height recording, staleness check and
      endpoint switching).

    Conventions of the embedding.

    - Amounts are JavaScript numbers, that is IEEE 754 doubles: they are
      [float], with the machine's operations and comparisons.  Heights,
      response codes and millisecond clocks are whole numbers well inside
      the exact range of doubles and are integers ([Z]); the number drawn
      by [Math.random] is a rational ([Q]).
    - [undefined] / [null] are [None] of an option type.
    - What the environment answers (a database error, the node's reply to
      an announce, the clock, [Math.random]) is an explicit input; what
      [Math.pow] and the database's [$sum] compute is a parameter.
    - The signing handler and the two height listeners are given as one
      run each, in which every callback follows at once on the request
      that registered it, and as the callbacks themselves, which the
      event loop takes one at a time, so that the callbacks of two runs
      can be put in another order ([inFlight], [deliverOverlapping]).
    - Code that throws returns [Throw]; effects made before the throw stay
      in the world. *)

From Stdlib Require Import ZArith QArith Qround String Ascii List Bool Lia Floats.
Import ListNotations.
Open Scope string_scope.
Open Scope Z_scope.

(** ** Exceptions and the world monad *)

Inductive Exn : Type :=
| Thrown (msg : string)        (* [throw "..."] *)
| TypeError (what : string).   (* property read on undefined or null *)

Inductive Result (A : Type) : Type :=
| Ok (a : A)
| Throw (e : Exn).
Arguments Ok {A} a.
Arguments Throw {A} e.

Definition isOk {A} (r : Result A) : bool :=
  match r with Ok _ => true | Throw _ => false end.

(** A computation over a world [W]: it returns or throws, and leaves a
    world behind in both cases. *)
Definition M (W A : Type) : Type := W -> Result A * W.

Definition ret {W A} (a : A) : M W A := fun w => (Ok a, w).

Definition bind {W A B} (m : M W A) (k : A -> M W B) : M W B :=
  fun w =>
    match m w with
    | (Ok a, w') => k a w'
    | (Throw e, w') => (Throw e, w')
    end.

Definition throw {W A} (e : Exn) : M W A := fun w => (Throw e, w).

(** [try { m } catch (e) { handler(e) }] *)
Definition tryCatch {W A} (m : M W A) (handler : Exn -> M W A) : M W A :=
  fun w =>
    match m w with
    | (Ok a, w') => (Ok a, w')
    | (Throw e, w') => handler e w'
    end.

Definition liftResult {W A} (r : Result A) : M W A := fun w => (r, w).

Definition gets {W A} (f : W -> A) : M W A := fun w => (Ok (f w), w).

Definition modify {W} (f : W -> W) : M W unit := fun w => (Ok tt, f w).

Declare Scope js_scope.
Delimit Scope js_scope with js.
Notation "x <- c1 ;; c2" := (bind c1 (fun x => c2))
  (at level 61, c1 at next level, right associativity) : js_scope.
Notation "c1 ;; c2" := (bind c1 (fun _ => c2))
  (at level 61, right associativity) : js_scope.

(** JavaScript comparisons of numbers; each is false when an operand is
    NaN. *)
Definition geq (a b : float) : bool := (b <=? a)%float.     (* a >= b *)
Definition gtq (a b : float) : bool := (b <? a)%float.      (* a > b *)
Definition ltq (a b : float) : bool := (a <? b)%float.      (* a < b *)

(** [ToNumber] of a value that is a number or [undefined]. *)
Definition toNumber (v : option float) : float :=
  match v with
  | Some x => x
  | None => nan
  end.

(** ** What the engine and the database compute *)

Class JSEngine : Type := {
  (* Math.pow(base, exponent); the language leaves its result
     implementation-approximated *)
  Math_pow : float -> float -> float
}.

Class Database : Type := {
  (* the accumulator {$sum: "$amountXEM"} of the aggregation, on the
     amountXEM fields of the documents grouped *)
  sumAmountXEM : list (option float) -> float
}.

(** ** The ledger SDK (nem-sdk), consumed as a black box *)

Class NemSDK : Type := {
  (* nem.model.transactionTypes.multisigTransaction *)
  multisigTransaction : Z;
  (* nem.utils.helpers.isPrivateKeyValid *)
  isPrivateKeyValid : string -> bool;
  (* nem.model.address.toAddress(publicKey, networkId) *)
  toAddress : string -> Z -> string;
  (* nem.model.network.data.{testnet,mijin,mainnet}.id *)
  testnet_id : Z;
  mijin_id : Z;
  mainnet_id : Z;
  (* objects.create("signatureTransaction"), transactions.prepare,
     serializeTransaction, keyPair.create(..).sign, ua2hex and
     JSON.stringify, composed: private key, multisig wallet, hash and
     network id to the broadcastable JSON text *)
  signatureBroadcastable : string -> string -> option string -> Z -> string
}.

(** ** Data model *)

Record MosaicId : Type := { namespaceId : string; name : string }.

Record Mosaic : Type := { mosaicId : MosaicId; quantity : float }.

(** A transaction object as NIS serves it; [otherTrans] is the inner
    transaction of a multisig wrapper, and [amount] is [None] on an object
    that has no amount (an inner transaction that is no transfer). *)
#[warnings="-register-all"]
Inductive Transaction : Type := mkTransaction {
  type : Z;
  signer : string;
  signature : string;
  amount : option float;
  fee : float;
  mosaics : option (list Mosaic);
  otherTrans : option Transaction
}.

Record HashObj : Type := { data : option string }.

Record Meta : Type := {
  id : Z;
  hash : option HashObj;
  innerHash : option HashObj;
  meta_data : option string   (* [meta.data] *)
}.

Record TransactionMetaDataPair : Type := {
  meta : Meta;
  transaction : Transaction
}.

(** [bot.sign.cosignatory.acceptFrom]: one public key or an array. *)
Inductive AcceptFrom : Type :=
| AcceptString (key : string)
| AcceptArray (keys : list string).

Record Node : Type := { host : string; port : Z }.

Record Config : Type := {
  (* nem *)
  isTestMode : bool;
  isMijin : bool;
  nodes : list Node;          (* nem['nodes' + confSuffix] *)
  (* bot.sign *)
  multisigAddress : string;
  dailyAmount : float;
  (* bot.sign.cosignatory *)
  walletAddress : string;
  privateKey : string;
  acceptFrom : AcceptFrom
}.

(** ** String helpers standing for the regular expressions used *)

Definition colon : ascii := ":"%char.
Definition hyphen : ascii := "-"%char.

Fixpoint hasColon (s : string) : bool :=
  match s with
  | EmptyString => false
  | String c rest => Ascii.eqb c colon || hasColon rest
  end.

(** [s.replace(/-/g, '')] *)
Fixpoint removeHyphens (s : string) : string :=
  match s with
  | EmptyString => EmptyString
  | String c rest =>
      if Ascii.eqb c hyphen then removeHyphens rest
      else String c (removeHyphens rest)
  end.

(** [s.replace(/:[^:]+$/, '')]: the match starts at a colon that is
    followed, up to the end, by one or more characters that are no colon. *)
Fixpoint stripLastSegment (s : string) : string :=
  match s with
  | EmptyString => EmptyString
  | String c rest =>
      if Ascii.eqb c colon && negb (rest =? "")%string && negb (hasColon rest)
      then EmptyString
      else String c (stripLastSegment rest)
  end.

(** The text after the first colon of [s], if [s] has a colon. *)
Fixpoint afterFirstColon (s : string) : option string :=
  match s with
  | EmptyString => None
  | String c rest => if Ascii.eqb c colon then Some rest else afterFirstColon rest
  end.

(** [s.replace(/^[^:]+:/, '')]: the match is one or more characters that
    are no colon at the start of [s], and the colon after them. *)
Definition stripFirstSegment (s : string) : string :=
  match s with
  | EmptyString => EmptyString
  | String c rest =>
      if Ascii.eqb c colon then s
      else match afterFirstColon rest with
           | Some r => r
           | None => s
           end
  end.

Fixpoint hasHyphen (s : string) : bool :=
  match s with
  | EmptyString => false
  | String c rest => Ascii.eqb c hyphen || hasHyphen rest
  end.

(** [new RegExp(pattern).test(s)] for a pattern of plain characters: the
    pattern occurs somewhere in [s]. *)
Fixpoint includes (pattern s : string) : bool :=
  prefix pattern s ||
  match s with
  | EmptyString => false
  | String _ rest => includes pattern rest
  end.

(** ** service.js *)

Module Service.
Section WithSDK.
Context {sdk : NemSDK} {js : JSEngine}.

(** The fields of the service object that the modelled code reads. *)
Record t : Type := {
  conf_ : Config;
  node_ : Node;
  env_BOT_SIGN_PKEY : option string;   (* process.env['BOT_SIGN_PKEY'] *)
  botSignMultisig_ : string;
  botSignWallet_ : string
}.

Definition getBotSignWallet (s : t) : string := botSignWallet_ s.

Definition getBotSignMultisigWallet (s : t) : string := botSignMultisig_ s.

(** [process.env['BOT_SIGN_PKEY'] || conf.bot.sign.cosignatory.privateKey] *)
Definition getBotSignSecret (s : t) : string :=
  match env_BOT_SIGN_PKEY s with
  | Some k => if (k =? "")%string then privateKey (conf_ s) else k
  | None => privateKey (conf_ s)
  end.

(** [getNetwork().config.id] *)
Definition networkId (s : t) : Z :=
  if isTestMode (conf_ s) then testnet_id
  else if isMijin (conf_ s) then mijin_id
  else mainnet_id.

Definition getTransactionId (p : TransactionMetaDataPair) : Z := id (meta p).

(** [getTransactionHash(transactionMetaDataPair, inner = true)] *)
Definition getTransactionHash (p : TransactionMetaDataPair) (inner : bool)
  : option string :=
  let trxHash :=
    match hash (meta p) with
    | Some h => data h
    | None => meta_data (meta p)
    end in
  if inner then
    match innerHash (meta p) with
    | Some ih =>
        match data ih with
        | Some d => if (d =? "")%string then trxHash else Some d
        | None => trxHash
        end
    | None => trxHash
    end
  else trxHash.

(** [isMultiSig ? content.otherTrans : content] *)
Definition realContent (content : Transaction) : option Transaction :=
  if type content =? multisigTransaction then otherTrans content
  else Some content.

(** The loop over [realContent.mosaics]: the first mosaic with the looked
    up namespace and name decides. *)
Fixpoint lookupMosaic (lookupNS lookupMos : string) (ms : list Mosaic)
  : option Mosaic :=
  match ms with
  | [] => None
  | mosaic :: rest =>
      if (namespaceId (mosaicId mosaic) =? lookupNS)%string
         && (name (mosaicId mosaic) =? lookupMos)%string
      then Some mosaic
      else lookupMosaic lookupNS lookupMos rest
  end.

(** [getTransactionAmount(pair, mosaicSlug = 'nem:xem', divisibility = 6)];
    [Ok None] is the return value [undefined]. *)
Definition getTransactionAmount (p : TransactionMetaDataPair)
    (mosaicSlug : string) (divisibility : float) : Result (option float) :=
  match realContent (transaction p) with
  | None => Throw (TypeError "realContent.mosaics")
  | Some rc =>
      let isMosaic :=
        match mosaics rc with
        | Some (_ :: _) => true
        | _ => false
        end in
      let lookupNS := stripLastSegment mosaicSlug in
      let lookupMos := stripFirstSegment mosaicSlug in
      if isMosaic then
        let multiplier :=
          (toNumber (amount rc) / Math_pow 10 divisibility)%float in
        match lookupMosaic lookupNS lookupMos
                (match mosaics rc with Some ms => ms | None => [] end) with
        | Some mosaic => Ok (Some (multiplier * quantity mosaic)%float)
        | None => Ok (Some 0%float)
        end
      else if negb (mosaicSlug =? "nem:xem")%string then Ok (Some 0%float)
      else Ok (amount rc)
  end.

(** A mosaic whose identifier is exactly the namespace and name looked up. *)
Definition matchesSlug (ns nm : string) (x : Mosaic) : Prop :=
  namespaceId (mosaicId x) = ns /\ name (mosaicId x) = nm.

(** The call with both defaults, as the signing handler makes it. *)
Definition getTransactionAmountXEM (p : TransactionMetaDataPair)
  : Result (option float) :=
  getTransactionAmount p "nem:xem" 6.

(** [envValue || confValue] for a value read from [process.env]. *)
Definition orConf (envValue : option string) (confValue : string) : string :=
  match envValue with
  | Some v => if (v =? "")%string then confValue else v
  | None => confValue
  end.

(** The wallet fields set by the constructor:
    [(process.env[...] || conf...).replace(/-/g, '')]. *)
Definition botWallet (envValue : option string) (confValue : string) : string :=
  removeHyphens (orConf envValue confValue).

(** [bot.mode]: one mode or an array of modes. *)
Inductive BotMode : Type :=
| ModeString (mode : string)
| ModeArray (modes : list string).

(** [isMode(mode)], [confMode] being [conf_.bot.mode]. *)
Definition isMode (confMode : BotMode) (mode : string) : bool :=
  match confMode with
  | ModeString m => (m =? mode)%string || (m =? "all")%string
  | ModeArray ms =>
      existsb (fun current => (mode =? current)%string || ("all" =? current)%string) ms
  end.

Definition isReadBot (confMode : BotMode) : bool := isMode confMode "read".
Definition isSignBot (confMode : BotMode) : bool := isMode confMode "sign".
Definition isTipperBot (confMode : BotMode) : bool := isMode confMode "tip".

Definition getTransactionFee (p : TransactionMetaDataPair) : float :=
  fee (transaction p).

(** [getAddressFromPublicKey(pubKey)] *)
Definition getAddressFromPublicKey (s : t) (pubKey : string) : string :=
  toAddress pubKey (networkId s).

(** [getTransactionSender(transactionMetaDataPair)] *)
Definition getTransactionSender (s : t) (p : TransactionMetaDataPair)
  : Result string :=
  let content := transaction p in
  if type content =? multisigTransaction then
    match otherTrans content with
    | Some inner => Ok (getAddressFromPublicKey s (signer inner))
    | None => Throw (TypeError "content.otherTrans.signer")
    end
  else Ok (getAddressFromPublicKey s (signer content)).

End WithSDK.
End Service.

(** ** multisig-cosignatory.js *)

Module MultisigCosignatory.
Section WithSDK.
Context {sdk : NemSDK} {js : JSEngine} {db : Database}.

(** A document of the [NEMSignedTransaction] collection. *)
Record NEMSignedTransaction : Type := {
  multisigXEM : string;
  cosignerXEM : string;
  transactionHash : option string;
  nemNodeData : string;                      (* { socketHost: socketpt } *)
  transactionData : TransactionMetaDataPair;
  amountXEM : option float;                  (* no field when undefined *)
  createdAt : Z
}.

(** The answer of NIS to [transaction.announce] (a NemRequestResult). *)
Record NemRequestResult : Type := { code : Z; message : string }.

(** The promise of [transaction.announce] resolves or is rejected. *)
Inductive AnnounceReply : Type :=
| Resolved (res : NemRequestResult)
| Rejected (err : string).

Record NemSocket : Type := { socketpt : string }.

(** One entry per logger call of the modelled code. *)
Inductive LogEntry : Type :=
| LogDatabaseError (err : string)
| LogLimitReached (dailyMax : float)
| LogLimitWouldBePassed (total : float)
| LogSigningAborted (e : Exn)
| LogAnnounceError (msg : string)
| LogCoSigned (trxHash : option string) (msg : string)
| LogSigningError (err : string).

(** What the handler acts on: the collection of signed transactions, the
    announce requests sent to the node, and the log. *)
Record World : Type := {
  signedTransactions : list NEMSignedTransaction;
  announced : list (Node * string);
  logged : list LogEntry
}.

(** The cosignatory object: its service and its socket ([nemsocket_] is
    [null] until [connectBlockchainSocket] has run). *)
Record Instance : Type := {
  blockchain_ : Service.t;
  nemsocket_ : option NemSocket
}.

(** What the environment answers during one run of the handler. *)
Record Env : Type := {
  findOneErr : option string;       (* [err] of NEMSignedTransaction.findOne *)
  aggregateErr : option string;     (* [err] of NEMSignedTransaction.aggregate *)
  announceReply : AnnounceReply;
  now : Z                           (* new Date().valueOf() *)
}.

Definition config (instance : Instance) : Config :=
  Service.conf_ (blockchain_ instance).

Definition withLogged (e : LogEntry) (w : World) : World :=
  {| signedTransactions := signedTransactions w;
     announced := announced w;
     logged := logged w ++ [e] |}.

Definition withSaved (t : NEMSignedTransaction) (w : World) : World :=
  {| signedTransactions := signedTransactions w ++ [t];
     announced := announced w;
     logged := logged w |}.

Definition withAnnounced (endpoint : Node) (broadcastable : string) (w : World)
  : World :=
  {| signedTransactions := signedTransactions w;
     announced := announced w ++ [(endpoint, broadcastable)];
     logged := logged w |}.

Definition log (e : LogEntry) : M World unit := modify (withLogged e).

(** [transaction.save()] *)
Definition save (t : NEMSignedTransaction) : M World unit :=
  modify (withSaved t).

(** [requests.transaction.announce(endpoint, broadcastable)] is sent. *)
Definition announce (endpoint : Node) (broadcastable : string) : M World unit :=
  modify (withAnnounced endpoint broadcastable).

Definition hashEqb (a b : option string) : bool :=
  match a, b with
  | Some x, Some y => (x =? y)%string
  | None, None => true
  | _, _ => false
  end.

(** [NEMSignedTransaction.findOne({ transactionHash: trxHash }, cb)]: the
    arguments [(err, signedTrx)] the callback receives. *)
Definition findOneResult (err : option string) (trxHash : option string)
    (w : World) : option string * option NEMSignedTransaction :=
  match err with
  | Some e => (Some e, None)
  | None =>
      (None, find (fun t => hashEqb (transactionHash t) trxHash)
                  (signedTransactions w))
  end.

Definition findOne (err : option string) (trxHash : option string)
  : M World (option string * option NEMSignedTransaction) :=
  gets (findOneResult err trxHash).

(** [NEMSignedTransaction.aggregate({$group: {_id: null, dailyAmount:
    {$sum: "$amountXEM"}}}, ...)]: the [dailyAmount] of the
    [aggregateData] the callback receives; there is none on an error or
    when the collection has nothing to group. *)
Definition aggregateResult (err : option string) (w : World) : option float :=
  match err with
  | Some _ => None
  | None =>
      match signedTransactions w with
      | [] => None
      | l => Some (sumAmountXEM (map amountXEM l))
      end
  end.

Definition aggregate (err : option string) : M World (option float) :=
  gets (aggregateResult err).

(** [isAcceptedCosignatory(cosigPubKey)] *)
Definition isAcceptedCosignatory (instance : Instance) (cosigPubKey : string)
  : bool :=
  match acceptFrom (config instance) with
  | AcceptString cosigs => (cosigs =? cosigPubKey)%string
  | AcceptArray cosigs => existsb (fun valid => (valid =? cosigPubKey)%string) cosigs
  end.

(** Membership in the allow-list, for either shape of [acceptFrom]. *)
Definition inAllowList (cosigs : AcceptFrom) (cosigPubKey : string) : Prop :=
  match cosigs with
  | AcceptString key => key = cosigPubKey
  | AcceptArray keys => In cosigPubKey keys
  end.

(** [verifyTransaction(transactionMetaDataPair)] *)
Definition verifyTransaction (instance : Instance)
    (p : TransactionMetaDataPair) : Result bool :=
  let content := transaction p in
  let isMultisig := type content =? multisigTransaction in
  let trxRealData := if isMultisig then otherTrans content else Some content in
  let trxInitiatorPubKey := signer content in
  match trxRealData with
  | None => Throw (TypeError "trxRealData.signer")
  | Some real =>
      let trxAcctPubKey := signer real in
      let trxRealAccount :=
        removeHyphens
          (toAddress trxAcctPubKey (Service.networkId (blockchain_ instance))) in
      let multisigAccount := multisigAddress (config instance) in
      if negb (isAcceptedCosignatory instance trxInitiatorPubKey) then Ok false
      else if negb (trxRealAccount =? multisigAccount)%string then Ok false
      else Ok true
  end.

Definition invalidPrivateKey : Exn :=
  Thrown "Invalid private key in bot.json, Please fix to start co-signing NEM blockchain transactions.".

Definition invalidPair : Exn :=
  Thrown "Invalid transactionMetaDataPair object provided. Signature could not be verified!".

(** [signTransaction], the part that runs when it is called: checks, the
    signature transaction, and the announce request.  It returns once the
    request is sent; the reply is handled later by [announceThen]. *)
Definition signTransaction (instance : Instance) (p : TransactionMetaDataPair)
  : M World unit :=
  let trxHash := Service.getTransactionHash p true in
  let privateKey := Service.getBotSignSecret (blockchain_ instance) in
  let multisigWallet := Service.getBotSignMultisigWallet (blockchain_ instance) in
  (if negb (isPrivateKeyValid privateKey) then throw invalidPrivateKey
   else
     verified <- liftResult (verifyTransaction instance p) ;;
     if negb verified then throw invalidPair
     else
       let networkId := Service.networkId (blockchain_ instance) in
       let broadcastable :=
         signatureBroadcastable privateKey multisigWallet trxHash networkId in
       announce (Service.node_ (blockchain_ instance)) broadcastable)%js.

(** The two handlers given to [.then] of the announce promise. *)
Definition announceThen (p : TransactionMetaDataPair)
    (callback : NemRequestResult -> M World unit) (reply : AnnounceReply)
  : M World unit :=
  let trxHash := Service.getTransactionHash p true in
  match reply with
  | Resolved res =>
      if 2 <=? code res then log (LogAnnounceError (message res))
      else if ("SUCCESS" =? message res)%string then
        (log (LogCoSigned trxHash (message res)) ;; callback res)%js
      else ret tt
  | Rejected err => log (LogSigningError err)
  end.

(** [new instance.db_.NEMSignedTransaction({...})] in the callback. *)
Definition newSignedTransaction (instance : Instance) (env : Env)
    (p : TransactionMetaDataPair) (trxAmount : option float) (sock : NemSocket)
  : NEMSignedTransaction :=
  {| multisigXEM := Service.getBotSignMultisigWallet (blockchain_ instance);
     cosignerXEM := Service.getBotSignWallet (blockchain_ instance);
     transactionHash := Service.getTransactionHash p true;
     nemNodeData := socketpt sock;
     transactionData := p;
     amountXEM := trxAmount;
     createdAt := now env |}.

(** The callback the handler passes to [signTransaction]: "now save to db". *)
Definition saveCallback (instance : Instance) (env : Env)
    (p : TransactionMetaDataPair) (trxAmount : option float)
    (response : NemRequestResult)
  : M World unit :=
  match nemsocket_ instance with
  | None => throw (TypeError "instance.nemsocket_.socketpt")
  | Some sock => save (newSignedTransaction instance env p trxAmount sock)
  end.

(** Steps (2) and (3) of the handler: the [try] block around
    [signTransaction], then, if the request went out, the reply.  The
    promise handlers run after the [try] block is left, so what they throw
    is not caught by it. *)
Definition signAndSave (instance : Instance) (env : Env)
    (p : TransactionMetaDataPair) (trxAmount : option float) : M World unit :=
  (sent <- tryCatch (signTransaction instance p ;; ret true)
                    (fun e => log (LogSigningAborted e) ;; ret false) ;;
   if sent : bool
   then announceThen p (saveCallback instance env p trxAmount) (announceReply env)
   else ret tt)%js.

(** [aggregateData && aggregateData.dailyAmount > 0 ?
     aggregateData.dailyAmount : 0] *)
Definition dailyAmtOf (aggregateData : option float) : float :=
  match aggregateData with
  | Some dailyAmount => if gtq dailyAmount 0 then dailyAmount else 0%float
  | None => 0%float
  end.

(** The callback of [aggregate]: step (1), the daily maximum.  The sum
    [dailyAmt + trxAmount] is the engine's: a double, NaN when the amount
    is [undefined]. *)
Definition aggregateCallback (instance : Instance) (env : Env)
    (p : TransactionMetaDataPair) (aggregateData : option float)
  : M World unit :=
  let dailyAmt := dailyAmtOf aggregateData in
  let dailyMax := dailyAmount (config instance) in
  (if gtq dailyMax 0 && geq dailyAmt dailyMax then log (LogLimitReached dailyMax)
   else
     trxAmount <- liftResult (Service.getTransactionAmountXEM p) ;;
     if gtq dailyMax 0 && gtq (dailyAmt + toNumber trxAmount)%float dailyMax
     then log (LogLimitWouldBePassed (dailyAmt + toNumber trxAmount)%float)
     else signAndSave instance env p trxAmount)%js.

(** [automaticTransactionSigningHandler(instance, transactionMetaDataPair)],
    as one run with nothing in between: each callback follows at once on
    the request that registered it. *)
Definition automaticTransactionSigningHandler (instance : Instance)
    (env : Env) (p : TransactionMetaDataPair) : M World unit :=
  let trxHash := Service.getTransactionHash p true in
  (found <- findOne (findOneErr env) trxHash ;;
   match found with
   | (None, Some _) => ret tt                      (* transaction already signed *)
   | (Some err, _) => log (LogDatabaseError err)
   | (None, None) =>
       aggregateData <- aggregate (aggregateErr env) ;;
       aggregateCallback instance env p aggregateData
   end)%js.

(** *** The callbacks of a run, one at a time

    The event loop takes each callback on its own, so that between the
    request and its callback the callbacks of other runs can come.  What
    a run waits for: *)
Inductive Pending : Type :=
| AwaitFindOne                                (* findOne is asked *)
| AwaitAggregate                              (* aggregate is asked *)
| AwaitAnnounce (trxAmount : option float)    (* the announce request is out *)
| Finished.

(** The callback of [findOne]; it asks [aggregate] when there is neither
    an error nor a record. *)
Definition findOneCallback (instance : Instance) (env : Env)
    (p : TransactionMetaDataPair) : M World Pending :=
  let trxHash := Service.getTransactionHash p true in
  (found <- findOne (findOneErr env) trxHash ;;
   match found with
   | (None, Some _) => ret Finished
   | (Some err, _) => log (LogDatabaseError err) ;; ret Finished
   | (None, None) => ret AwaitAggregate
   end)%js.

(** The callback of [aggregate], to the end of the [try] block: the two
    limit checks and [signTransaction], which sends the request. *)
Definition limitCallback (instance : Instance) (env : Env)
    (p : TransactionMetaDataPair) : M World Pending :=
  let dailyMax := dailyAmount (config instance) in
  (aggregateData <- aggregate (aggregateErr env) ;;
   let dailyAmt := dailyAmtOf aggregateData in
   if gtq dailyMax 0 && geq dailyAmt dailyMax
   then log (LogLimitReached dailyMax) ;; ret Finished
   else
     trxAmount <- liftResult (Service.getTransactionAmountXEM p) ;;
     if gtq dailyMax 0 && gtq (dailyAmt + toNumber trxAmount)%float dailyMax
     then log (LogLimitWouldBePassed (dailyAmt + toNumber trxAmount)%float) ;;
          ret Finished
     else
       sent <- tryCatch (signTransaction instance p ;; ret true)
                        (fun e => log (LogSigningAborted e) ;; ret false) ;;
       ret (if sent : bool then AwaitAnnounce trxAmount else Finished))%js.

(** The handlers of the announce promise, with the save callback. *)
Definition replyCallback (instance : Instance) (env : Env)
    (p : TransactionMetaDataPair) (trxAmount : option float) : M World Pending :=
  (announceThen p (saveCallback instance env p trxAmount) (announceReply env) ;;
   ret Finished)%js.

(** What escapes a callback ends its run and nothing else: the event
    loop goes on. *)
Definition settle (out : Result Pending * World) : Result Pending * World :=
  match out with
  | (Ok k, w) => (Ok k, w)
  | (Throw _, w) => (Ok Finished, w)
  end.

(** The next callback of a run is taken. *)
Definition resume (instance : Instance) (env : Env)
    (p : TransactionMetaDataPair) (k : Pending) : M World Pending :=
  fun w =>
    settle
      match k with
      | AwaitFindOne => findOneCallback instance env p w
      | AwaitAggregate => limitCallback instance env p w
      | AwaitAnnounce trxAmount => replyCallback instance env p trxAmount w
      | Finished => (Ok Finished, w)
      end.

(** Two runs in flight; [schedule] tells whose callback the event loop
    takes next: [true] for the first run, [false] for the second. *)
Fixpoint inFlight (instance : Instance) (env1 env2 : Env)
    (p1 p2 : TransactionMetaDataPair) (schedule : list bool)
    (k1 k2 : Pending) : M World (Pending * Pending) :=
  match schedule with
  | [] => ret (k1, k2)
  | true :: rest =>
      (k <- resume instance env1 p1 k1 ;;
       inFlight instance env1 env2 p1 p2 rest k k2)%js
  | false :: rest =>
      (k <- resume instance env2 p2 k2 ;;
       inFlight instance env1 env2 p1 p2 rest k1 k)%js
  end.

(** Records stored for a hash. *)
Definition recordsFor (trxHash : option string) (w : World)
  : list NEMSignedTransaction :=
  filter (fun t => hashEqb (transactionHash t) trxHash) (signedTransactions w).

(** The listener of [/unconfirmed/<multisig wallet>] set up by
    [connectBlockchainSocket], on the parsed message body. *)
Definition unconfirmedListener (instance : Instance) (env : Env)
    (transactionData : TransactionMetaDataPair) : M World unit :=
  let transaction := transaction transactionData in
  if negb (type transaction =? multisigTransaction) then ret tt
  else automaticTransactionSigningHandler instance env transactionData.

(** An element of the array that [account.transactions.unconfirmed]
    resolves with: a pair of [meta] and [transaction], and whatever [type]
    property the element itself has ([None]: it has none, as NIS documents
    the pair). *)
Record UnconfirmedEntry : Type := {
  entry_type : option Z;
  entry_pair : TransactionMetaDataPair
}.

Inductive UnconfirmedReply : Type :=
| UnconfirmedResolved (data : list UnconfirmedEntry)
| UnconfirmedRejected (err : string).

(** The two logger calls of [websocketFallbackHandler]. *)
Inductive PollLog : Type :=
| LogPollTry (count : nat) (cosigner multisig : string)
| LogPollError (err : string).

(** The world of the poll: the world the signing runs act on, which the
    poll's own callback leaves alone, and the poll's log. *)
Record PollWorld : Type := {
  signing : World;
  pollLogged : list PollLog
}.

Definition logPoll (e : PollLog) : M PollWorld unit :=
  modify (fun pw => {| signing := signing pw;
                       pollLogged := pollLogged pw ++ [e] |}).

(** [transaction.type != multisigTransaction] on an array element. *)
Definition entryIsNotMultisig (transaction : UnconfirmedEntry) : bool :=
  match entry_type transaction with
  | Some t => negb (t =? multisigTransaction)
  | None => true
  end.

(** The [for (var i in unconfirmed)] loop.  For an element it does not
    skip it calls the signing handler, which asks [findOne] and returns:
    the loop touches neither store nor node, and what it leaves behind is
    the runs it started, the pair of element [i] waiting at
    [AwaitFindOne]. *)
Fixpoint signUnconfirmed (i : nat) (unconfirmed : list UnconfirmedEntry)
  : list (nat * TransactionMetaDataPair) :=
  match unconfirmed with
  | [] => []
  | transaction :: rest =>
      if entryIsNotMultisig transaction
      then signUnconfirmed (S i) rest                        (* continue *)
      else (i, entry_pair transaction) :: signUnconfirmed (S i) rest
  end.

(** [websocketFallbackHandler(instance)], from the reply to
    [account.transactions.unconfirmed] on; it returns the runs of the
    signing handler it started. *)
Definition websocketFallbackHandler (instance : Instance)
    (reply : UnconfirmedReply)
  : M PollWorld (list (nat * TransactionMetaDataPair)) :=
  match reply with
  | UnconfirmedResolved unconfirmed =>
      (logPoll (LogPollTry (length unconfirmed)
                  (Service.getBotSignWallet (blockchain_ instance))
                  (Service.getBotSignMultisigWallet (blockchain_ instance))) ;;
       ret (signUnconfirmed O unconfirmed))%js
  | UnconfirmedRejected err => (logPoll (LogPollError err) ;; ret [])%js
  end.

End WithSDK.
End MultisigCosignatory.

(** ** blocks-auditor.js *)

Module BlocksAuditor.

(** A document of the [NEMBlockHeight] collection. *)
Record NEMBlockHeight : Type := {
  blockHeight : Z;
  moduleName : string;
  createdAt : Z
}.

(** What the auditor asks of its surroundings, in the order asked. *)
Inductive Effect : Type :=
| LogNewBlock (height : Z)
| LogSaveError (err : string)
| LogHeightError (err : string)
| LogDbReadError (err : string)
| ClearInterval                       (* clearInterval(aliveInterval) *)
| SubscribeToBlockUpdates             (* self.subscribeToBlockUpdates() *)
| LogConnectionLost (nodeHost : string)
| FallbackPull                        (* self.websocketFallbackHandler() *)
| LogWaiting
| SetTimeoutAutoSwitch (ms : Z)       (* setTimeout(autoSwitchSocketNode, ms) *)
| Disconnect                          (* module_.disconnectBlockchainSocket *)
| LogSwitching (nextHost : string) (nextPort : Z)
| Connect.                            (* module_.connectBlockchainSocket() *)

Record World : Type := {
  blockHeights : list NEMBlockHeight;
  node_ : Node;                       (* blockchain_.node_ *)
  effects : list Effect
}.

(** The audited module and the configured nodes. *)
Record Auditor : Type := {
  module_moduleName : string;         (* module_.moduleName *)
  nodesList : list Node               (* conf_.nem['nodes' + confSuffix] *)
}.

Record Env : Type := {
  findOneErr : option string;         (* [err] of NEMBlockHeight.findOne *)
  saveErr : option string;            (* [err] of block.save *)
  now : Z                             (* new Date().valueOf() *)
}.

(** The promise of [chain.height] resolves with a height or is rejected. *)
Inductive HeightReply : Type :=
| HeightResolved (height : Z)
| HeightRejected (err : string).

Definition withEffect (e : Effect) (w : World) : World :=
  {| blockHeights := blockHeights w;
     node_ := node_ w;
     effects := effects w ++ [e] |}.

Definition withBlock (b : NEMBlockHeight) (w : World) : World :=
  {| blockHeights := blockHeights w ++ [b];
     node_ := node_ w;
     effects := effects w |}.

Definition emit (e : Effect) : M World unit := modify (withEffect e).

Definition matchesQuery (qModule : string) (qHeight : Z) (b : NEMBlockHeight)
  : bool :=
  (moduleName b =? qModule)%string && (blockHeight b =? qHeight).

(** [NEMBlockHeight.findOne({moduleName, blockHeight}, cb)] *)
Definition findOne (err : option string) (qModule : string) (qHeight : Z)
  : M World (option string * option NEMBlockHeight) :=
  match err with
  | Some e => ret (Some e, None)
  | None =>
      gets (fun w => (None, find (matchesQuery qModule qHeight) (blockHeights w)))
  end.

(** [block.save(cb)]: the [err] the callback receives. *)
Definition saveBlock (err : option string) (b : NEMBlockHeight)
  : M World (option string) :=
  match err with
  | Some e => ret (Some e)
  | None => (modify (withBlock b) ;; ret None)%js
  end.

(** [new self.db_.NEMBlockHeight({...})] *)
Definition newBlockHeight (a : Auditor) (env : Env) (height : Z)
  : NEMBlockHeight :=
  {| blockHeight := height;
     moduleName := module_moduleName a;
     createdAt := now env |}.

(** The callback of [findOne], the same text in both listeners: with
    neither an error nor a record the height is saved, and the callback of
    [save] logs what went wrong. *)
Definition heightCallback (a : Auditor) (env : Env) (height : Z)
    (found : option string * option NEMBlockHeight) : M World unit :=
  match found with
  | (None, None) =>
      (err <- saveBlock (saveErr env) (newBlockHeight a env height) ;;
       match err with
       | Some e => emit (LogSaveError e)
       | None => ret tt
       end)%js
  | _ => ret tt
  end.

(** A height arrives, by either path: the log line and the query, with
    what [findOne] will hand to its callback. *)
Definition heightAsked (a : Auditor) (env : Env) (height : Z)
  : M World (option string * option NEMBlockHeight) :=
  (emit (LogNewBlock height) ;;
   findOne (findOneErr env) (module_moduleName a) height)%js.

(** The listener of [/blocks/new] set up by [subscribeToBlockUpdates], as
    one run: the callback of [findOne] follows at once on the query. *)
Definition newBlockListener (a : Auditor) (env : Env) (parsedHeight : Z)
  : M World unit :=
  (found <- heightAsked a env parsedHeight ;;
   heightCallback a env parsedHeight found)%js.

(** [websocketFallbackHandler], from the reply to [chain.height] on, as
    one run. *)
Definition websocketFallbackHandler (a : Auditor) (env : Env)
    (reply : HeightReply) : M World unit :=
  match reply with
  | HeightResolved resHeight =>
      (found <- heightAsked a env resHeight ;;
       heightCallback a env resHeight found)%js
  | HeightRejected err => emit (LogHeightError err)
  end.

(** Two arrivals of a height that overlap: the event loop takes both
    queries before the callback of either, so that each callback gets
    what the store held before the other one saved. *)
Definition deliverOverlapping (a : Auditor) (env1 env2 : Env) (height : Z)
  : M World unit :=
  (found1 <- heightAsked a env1 height ;;
   found2 <- heightAsked a env2 height ;;
   heightCallback a env1 height found1 ;;
   heightCallback a env2 height found2)%js.

(** The first document in descending order of [blockHeight]. *)
Fixpoint highest (best : option NEMBlockHeight) (l : list NEMBlockHeight)
  : option NEMBlockHeight :=
  match l with
  | [] => best
  | b :: rest =>
      match best with
      | Some c => if blockHeight c <? blockHeight b
                  then highest (Some b) rest else highest best rest
      | None => highest (Some b) rest
      end
  end.

(** [NEMBlockHeight.findOne({moduleName}, null, {sort: {blockHeight: -1}}, cb)] *)
Definition findLatest (err : option string) (qModule : string)
  : M World (option string * option NEMBlockHeight) :=
  match err with
  | Some e => ret (Some e, None)
  | None =>
      gets (fun w =>
              (None,
               highest None
                 (filter (fun b => (moduleName b =? qModule)%string)
                         (blockHeights w))))
  end.

Definition staleAfter : Z := 5 * 60 * 1000.
Definition settleDelay : Z := 3000.

(** The callback of [findOne] inside the interval of
    [registerBlockDelayAuditor]. *)
Definition delayAuditorCallback (err : option string)
    (block : option NEMBlockHeight) (nowMs : Z) : M World unit :=
  match err with
  | Some e =>
      (emit (LogDbReadError e) ;;
       emit ClearInterval ;;
       emit SubscribeToBlockUpdates)%js
  | None =>
      let limitAge := nowMs - staleAfter in
      let stale :=
        match block with
        | None => true
        | Some b => createdAt b <=? limitAge
        end in
      if stale then
        (w <- gets (fun w => w) ;;
         emit (LogConnectionLost (host (node_ w))) ;;
         emit ClearInterval ;;
         emit FallbackPull ;;
         emit LogWaiting ;;
         emit (SetTimeoutAutoSwitch settleDelay))%js
      else ret tt
  end.

(** One firing of the interval: read the latest height, then the callback. *)
Definition aliveIntervalTick (a : Auditor) (env : Env) : M World unit :=
  (found <- findLatest (findOneErr env) (module_moduleName a) ;;
   delayAuditorCallback (fst found) (snd found) (now env))%js.

(** [nodesList[randomIdx]] *)
Definition nodeAt (l : list Node) (idx : Z) : option Node :=
  if idx <? 0 then None else nth_error l (Z.to_nat idx).

(** [Math.floor(Math.random() * (cntNodes - 1))], [r] the random number. *)
Definition randomIdxOf (r : Q) (cntNodes : Z) : Z :=
  Qfloor (r * inject_Z (cntNodes - 1)).

Inductive LoopOutcome : Type :=
| Selected (nextHost : string) (nextPort : Z)
| Crashed (e : Exn)
| StillLooping.                       (* the fuel ran out inside the loop *)

(** The [do ... while (nextHost == currentHost)] loop of
    [autoSwitchSocketNode]; [random n] is what the [n]-th call of
    [Math.random] returns, [fuel] bounds the iterations run. *)
Fixpoint selectLoop (fuel : nat) (random : nat -> Q) (n : nat)
    (nodes : list Node) (currentHost : string) : LoopOutcome :=
  match fuel with
  | O => StillLooping
  | S fuel' =>
      let cntNodes := Z.of_nat (length nodes) in
      let randomIdx := randomIdxOf (random n) cntNodes in
      match nodeAt nodes randomIdx with
      | None => Crashed (TypeError "nodesList[randomIdx].host")
      | Some node =>
          if (host node =? currentHost)%string
          then selectLoop fuel' random (S n) nodes currentHost
          else Selected (host node) (port node)
      end
  end.

(** [autoSwitchSocketNode]: disconnect, pick a node, install it, connect.
    [None]: the loop did not end within [fuel] iterations. *)
Definition autoSwitchSocketNode (a : Auditor) (fuel : nat) (random : nat -> Q)
    (w : World) : option (Result unit * World) :=
  let w1 := withEffect Disconnect w in
  let currentHost := host (node_ w1) in
  match selectLoop fuel random O (nodesList a) currentHost with
  | StillLooping => None
  | Crashed e => Some (Throw e, w1)
  | Selected nextHost nextPort =>
      Some (Ok tt,
            {| blockHeights := blockHeights w1;
               node_ := {| host := nextHost; port := nextPort |};
               effects := effects w1 ++ [LogSwitching nextHost nextPort; Connect] |})
  end.

(** Documents stored for a height of a module. *)
Definition heightsFor (qModule : string) (qHeight : Z) (w : World)
  : list NEMBlockHeight :=
  filter (matchesQuery qModule qHeight) (blockHeights w).

Definition switchSequence (nodeHost : string) : list Effect :=
  [LogConnectionLost nodeHost; ClearInterval; FallbackPull; LogWaiting;
   SetTimeoutAutoSwitch settleDelay].

(** The two ways a height reaches the store: the push event and the
    reply to the pull of [chain.height]. *)
Inductive Delivery : Type := Push | Pull.

Definition deliverHeight (d : Delivery) (a : Auditor) (env : Env) (height : Z)
  : M World unit :=
  match d with
  | Push => newBlockListener a env height
  | Pull => websocketFallbackHandler a env (HeightResolved height)
  end.

End BlocksAuditor.

(** ** The socket of the cosignatory and the start of its auditor

    [connectBlockchainSocket] of multisig-cosignatory.js, with the
    constructor of BlocksAuditor (blocks-auditor.js) that its connect
    callback calls. *)

Module Connection.
Section WithSDK.
Context {sdk : NemSDK}.

(** What the constructor of BlocksAuditor asks of the module it audits:
    [typeof auditModule.<method> != 'undefined']. *)
Record AuditModule : Type := {
  has_connectBlockchainSocket : bool;
  has_disconnectBlockchainSocket : bool
}.

(** The cosignatory object as its constructor builds it: it defines
    [connectBlockchainSocket], [connectFallbackListener],
    [verifyTransaction], [isAcceptedCosignatory] and [signTransaction],
    and no [disconnectBlockchainSocket]. *)
Definition cosignatoryModule : AuditModule := {|
  has_connectBlockchainSocket := true;
  has_disconnectBlockchainSocket := false
|}.

Inductive Effect : Type :=
| NewSocket (node : Node)              (* new api_(host + ":" + port) *)
| ConnectWS                            (* nemsocket_.connectWS(...) *)
| LogConnected
| LogSubscribing (uri : string)
| SubscribeWS (uri : string)
| SendWS (uri : string) (account : string)
| SetInterval (ms : Z)
| HeightPull                           (* auditor.websocketFallbackHandler() *)
| LogSubscriptionError (e : Exn)
| LogDrop
| LogUncaught (error : string).

Record World : Type := {
  nemsocket_ : option Node;            (* the node the socket was made for *)
  nemSubscriptions_ : list string;     (* the keys of the object *)
  auditor_ : bool;                     (* [auditor_] is set *)
  effects : list Effect
}.

Definition emit (e : Effect) : M World unit :=
  modify (fun w => {| nemsocket_ := nemsocket_ w;
                      nemSubscriptions_ := nemSubscriptions_ w;
                      auditor_ := auditor_ w;
                      effects := effects w ++ [e] |}).

(** [obj[key] = value] on the keys of an object. *)
Definition assignKey (key : string) (keys : list string) : list string :=
  if existsb (String.eqb key) keys then keys else keys ++ [key].

(** [self.nemSubscriptions_[uri] = self.nemsocket_.subscribeWS(uri, ...)] *)
Definition subscribe (uri : string) : M World unit :=
  (emit (SubscribeWS uri) ;;
   modify (fun w => {| nemsocket_ := nemsocket_ w;
                       nemSubscriptions_ := assignKey uri (nemSubscriptions_ w);
                       auditor_ := auditor_ w;
                       effects := effects w |}))%js.

(** [connectBlockchainSocket()]: a new socket for the node of the service
    and the request to connect it; the callbacks run on later events. *)
Definition connectBlockchainSocket (instance : MultisigCosignatory.Instance)
  : M World unit :=
  let node := Service.node_ (MultisigCosignatory.blockchain_ instance) in
  (modify (fun w => {| nemsocket_ := Some node;
                       nemSubscriptions_ := nemSubscriptions_ w;
                       auditor_ := auditor_ w;
                       effects := effects w |}) ;;
   emit (NewSocket node) ;;
   emit ConnectWS)%js.

(** [websocketErrorHandler(error)]; [false] stands for no return value. *)
Definition websocketErrorHandler (instance : MultisigCosignatory.Instance)
    (error : string) : M World bool :=
  if includes "Lost connection to" error then
    (emit LogDrop ;; connectBlockchainSocket instance ;; ret true)%js
  else
    (emit (LogUncaught error) ;; ret false)%js.

Definition missingConnect : Exn :=
  Thrown "Invalid module provided to BlocksAuditor class, missing implementation for connectBlockchainSocket method.".

Definition missingDisconnect : Exn :=
  Thrown "Invalid module provided to BlocksAuditor class, missing implementation for disconnectBlockchainSocket method.".

(** [registerBlockDelayAuditor()]: the interval of 10 minutes and the
    first pull of the height. *)
Definition registerBlockDelayAuditor : M World unit :=
  (emit (SetInterval (10 * 60 * 1000)) ;; emit HeightPull)%js.

(** [subscribeToBlockUpdates()] of the auditor, on the module's socket. *)
Definition subscribeToBlockUpdates : M World unit :=
  (emit (LogSubscribing "/blocks/new") ;;
   emit (SubscribeWS "/blocks/new") ;;
   registerBlockDelayAuditor)%js.

(** [new BlocksAuditor(auditModule)] *)
Definition newBlocksAuditor (auditModule : option AuditModule) : M World unit :=
  match auditModule with
  | None => throw missingConnect
  | Some m =>
      if negb (has_connectBlockchainSocket m) then throw missingConnect
      else if negb (has_disconnectBlockchainSocket m) then throw missingDisconnect
      else subscribeToBlockUpdates
  end.

Definition unconfirmedUri (instance : MultisigCosignatory.Instance) : string :=
  "/unconfirmed/" ++
  Service.getBotSignMultisigWallet (MultisigCosignatory.blockchain_ instance).

Definition sendUri : string := "/w/api/account/transfers/all".

(** The callback of [connectWS], run when the connection is established;
    [self] is the object handed to [new BlocksAuditor(self)]. *)
Definition onConnectOf (self : AuditModule)
    (instance : MultisigCosignatory.Instance) : M World unit :=
  tryCatch
    (emit LogConnected ;;
     emit (LogSubscribing "/errors") ;;
     subscribe "/errors" ;;
     newBlocksAuditor (Some self) ;;
     modify (fun w => {| nemsocket_ := nemsocket_ w;
                         nemSubscriptions_ := nemSubscriptions_ w;
                         auditor_ := true;
                         effects := effects w |}) ;;
     emit (LogSubscribing (unconfirmedUri instance)) ;;
     subscribe (unconfirmedUri instance) ;;
     emit (SendWS sendUri
             (Service.getBotSignWallet (MultisigCosignatory.blockchain_ instance))))%js
    (fun e =>
       (emit (LogSubscriptionError e) ;; connectBlockchainSocket instance)%js).

Definition onConnect (instance : MultisigCosignatory.Instance) : M World unit :=
  onConnectOf cosignatoryModule instance.

(** What the socket reports: the connection is established, or an error. *)
Inductive SocketEvent : Type :=
| Established
| SocketError (error : string).

Definition onEvent (self : AuditModule)
    (instance : MultisigCosignatory.Instance) (ev : SocketEvent) : M World unit :=
  match ev with
  | Established => onConnectOf self instance
  | SocketError error => (websocketErrorHandler instance error ;; ret tt)%js
  end.

(** The events of the socket, handled one after the other. *)
Fixpoint session (self : AuditModule)
    (instance : MultisigCosignatory.Instance) (events : list SocketEvent)
  : M World unit :=
  match events with
  | [] => ret tt
  | ev :: rest => (onEvent self instance ev ;; session self instance rest)%js
  end.

Definition countConnects (l : list Effect) : nat :=
  length (filter (fun e => match e with ConnectWS => true | _ => false end) l).

(** The events after which the code asks for a new connection. *)
Definition callsForReconnect (ev : SocketEvent) : bool :=
  match ev with
  | Established => true
  | SocketError error => includes "Lost connection to" error
  end.

End WithSDK.
End Connection.

(** ** Concrete data for the runs below *)

Module Fixture.

(** A stand-in for nem-sdk: the multisig type code and network ids are
    those of NEM, a private key passes when it has 64 or 66 characters,
    and an address is a prefix put before the public key. *)
Definition sdk : NemSDK := {|
  multisigTransaction := 4100;
  isPrivateKeyValid :=
    fun k => (String.length k =? 64)%nat || (String.length k =? 66)%nat;
  toAddress := fun publicKey _ => "TBOT-" ++ publicKey;
  testnet_id := -104;
  mijin_id := 96;
  mainnet_id := 104;
  signatureBroadcastable :=
    fun _ wallet trxHash _ =>
      "{data:" ++ wallet ++ "/" ++
      match trxHash with Some h => h | None => "undefined" end ++ "}"
|}.

(** A stand-in for [Math.pow]: exact on the whole exponents 0 to 6, by
    repeated multiplication, and NaN elsewhere. *)
Definition js : JSEngine := {|
  Math_pow := fun base exponent =>
    (if exponent =? 0 then 1
     else if exponent =? 1 then base
     else if exponent =? 2 then base * base
     else if exponent =? 3 then base * base * base
     else if exponent =? 4 then base * base * base * base
     else if exponent =? 5 then base * base * base * base * base
     else if exponent =? 6 then base * base * base * base * base * base
     else nan)%float
|}.

(** A stand-in for [$sum]: the amounts added from the first document on,
    a document without the field counting for nothing. *)
Definition db : Database := {|
  sumAmountXEM := fun amounts =>
    fold_left (fun acc v => match v with
                            | Some x => (acc + x)%float
                            | None => acc
                            end) amounts 0%float
|}.

Definition goodKey : string :=
  "0123456789abcdef0123456789abcdef0123456789abcdef0123456789abcdef".

Definition nodeA : Node := {| host := "alice"; port := 7890 |}.
Definition nodeB : Node := {| host := "bob"; port := 7890 |}.
Definition nodeC : Node := {| host := "carol"; port := 7890 |}.

Definition conf (key : string) (ceiling : float) : Config := {|
  isTestMode := true;
  isMijin := false;
  nodes := [nodeA; nodeB];
  multisigAddress := "TBOTMSIG";
  dailyAmount := ceiling;
  walletAddress := "TBOTCOSIG";
  privateKey := key;
  acceptFrom := AcceptArray ["INITIATOR1"; "INITIATOR2"]
|}.

Definition service (key : string) (ceiling : float) : Service.t := {|
  Service.conf_ := conf key ceiling;
  Service.node_ := nodeA;
  Service.env_BOT_SIGN_PKEY := None;
  Service.botSignMultisig_ := "TBOTMSIG";
  Service.botSignWallet_ := "TBOTCOSIG"
|}.

Definition instance (key : string) (ceiling : float)
  : MultisigCosignatory.Instance := {|
  MultisigCosignatory.blockchain_ := service key ceiling;
  MultisigCosignatory.nemsocket_ :=
    Some {| MultisigCosignatory.socketpt := "alice:7778" |}
|}.


(** A plain transfer of [amt], signed by the multisig account. *)
Definition transfer (amt : float) (ms : option (list Mosaic)) : Transaction := {|
  type := 257;
  signer := "MSIG";
  signature := "";
  amount := Some amt;
  fee := 0%float;
  mosaics := ms;
  otherTrans := None
|}.

(** A multisig wrapper around [inner], initiated by [initiator]. *)
Definition multisig (initiator : string) (inner : Transaction) : Transaction := {|
  type := 4100;
  signer := initiator;
  signature := "c0ffee";
  amount := Some 0%float;
  fee := 0%float;
  mosaics := None;
  otherTrans := Some inner
|}.

Definition metaOf (outer : string) (inner : option string) : Meta := {|
  id := 1;
  hash := Some {| data := Some outer |};
  innerHash := Some {| data := inner |};
  meta_data := None
|}.

(** A multisig candidate with inner hash [h] that moves [amt]. *)
Definition candidate (h initiator : string) (amt : float)
  : TransactionMetaDataPair := {|
  meta := metaOf "OUTER" (Some h);
  transaction := multisig initiator (transfer amt None)
|}.

(** The candidate of the end-to-end scenario: hash "ABC", amount 10. *)
Definition candidateABC (initiator : string) : TransactionMetaDataPair :=
  candidate "ABC" initiator 10.

Definition xem (q : float) : Mosaic :=
  {| mosaicId := {| namespaceId := "nem"; name := "xem" |}; quantity := q |}.

Definition otherMosaic (q : float) : Mosaic :=
  {| mosaicId := {| namespaceId := "evias"; name := "beer" |}; quantity := q |}.

Definition plainPair (t : Transaction) : TransactionMetaDataPair :=
  {| meta := metaOf "PLAIN" None; transaction := t |}.

Definition emptyWorld : MultisigCosignatory.World := {|
  MultisigCosignatory.signedTransactions := [];
  MultisigCosignatory.announced := [];
  MultisigCosignatory.logged := []
|}.

(** A record stored earlier for hash [h] with amount [amt]. *)
Definition signedRecord (h : string) (amt : float)
  : MultisigCosignatory.NEMSignedTransaction := {|
  MultisigCosignatory.multisigXEM := "TBOTMSIG";
  MultisigCosignatory.cosignerXEM := "TBOTCOSIG";
  MultisigCosignatory.transactionHash := Some h;
  MultisigCosignatory.nemNodeData := "alice:7778";
  MultisigCosignatory.transactionData := candidate h "INITIATOR1" amt;
  MultisigCosignatory.amountXEM := Some amt;
  MultisigCosignatory.createdAt := 0
|}.

Definition worldWith (l : list MultisigCosignatory.NEMSignedTransaction)
  : MultisigCosignatory.World := {|
  MultisigCosignatory.signedTransactions := l;
  MultisigCosignatory.announced := [];
  MultisigCosignatory.logged := []
|}.

Definition success : MultisigCosignatory.AnnounceReply :=
  MultisigCosignatory.Resolved
    {| MultisigCosignatory.code := 1; MultisigCosignatory.message := "SUCCESS" |}.

Definition neutral : MultisigCosignatory.AnnounceReply :=
  MultisigCosignatory.Resolved
    {| MultisigCosignatory.code := 0; MultisigCosignatory.message := "NEUTRAL" |}.


Definition env (reply : MultisigCosignatory.AnnounceReply) (t : Z)
  : MultisigCosignatory.Env := {|
  MultisigCosignatory.findOneErr := None;
  MultisigCosignatory.aggregateErr := None;
  MultisigCosignatory.announceReply := reply;
  MultisigCosignatory.now := t
|}.

(** A configuration whose multisig address is written with a hyphen. *)
Definition hyphenInstance : MultisigCosignatory.Instance := {|
  MultisigCosignatory.blockchain_ := {|
    Service.conf_ := {|
      isTestMode := true;
      isMijin := false;
      nodes := [nodeA; nodeB];
      multisigAddress := "TBOT-MSIG";
      dailyAmount := 100;
      walletAddress := "TBOT-COSIG";
      privateKey := goodKey;
      acceptFrom := AcceptString "INITIATOR1"
    |};
    Service.node_ := nodeA;
    Service.env_BOT_SIGN_PKEY := None;
    Service.botSignMultisig_ := "TBOTMSIG";
    Service.botSignWallet_ := "TBOTCOSIG"
  |};
  MultisigCosignatory.nemsocket_ :=
    Some {| MultisigCosignatory.socketpt := "alice:7778" |}
|}.

(** An environment whose aggregate read fails. *)
Definition aggregateDown (reply : MultisigCosignatory.AnnounceReply) (t : Z)
  : MultisigCosignatory.Env := {|
  MultisigCosignatory.findOneErr := None;
  MultisigCosignatory.aggregateErr := Some "aggregate timed out";
  MultisigCosignatory.announceReply := reply;
  MultisigCosignatory.now := t
|}.

Definition pollWorld : MultisigCosignatory.PollWorld := {|
  MultisigCosignatory.signing := emptyWorld;
  MultisigCosignatory.pollLogged := []
|}.

(** An element of the poll's reply as NIS documents it: the pair alone. *)
Definition polled (p : TransactionMetaDataPair) : MultisigCosignatory.UnconfirmedEntry := {|
  MultisigCosignatory.entry_type := None;
  MultisigCosignatory.entry_pair := p
|}.

Definition disconnected : Connection.World := {|
  Connection.nemsocket_ := None;
  Connection.nemSubscriptions_ := [];
  Connection.auditor_ := false;
  Connection.effects := []
|}.

(** [Math.random] returning 0.1, 0.2 and then 0.9 on every later call. *)
Definition thirdDrawHigh : nat -> Q :=
  fun n => match n with
           | O => (1 # 10)%Q
           | S O => (2 # 10)%Q
           | _ => (9 # 10)%Q
           end.

Definition auditor : BlocksAuditor.Auditor := {|
  BlocksAuditor.module_moduleName := "sign-socket";
  BlocksAuditor.nodesList := [nodeA; nodeB]
|}.

(** The same module with three nodes configured. *)
Definition auditor3 : BlocksAuditor.Auditor := {|
  BlocksAuditor.module_moduleName := "sign-socket";
  BlocksAuditor.nodesList := [nodeA; nodeB; nodeC]
|}.

Definition auditorWorld (blocks : list BlocksAuditor.NEMBlockHeight)
  : BlocksAuditor.World := {|
  BlocksAuditor.blockHeights := blocks;
  BlocksAuditor.node_ := nodeA;
  BlocksAuditor.effects := []
|}.

Definition auditorEnv (readErr : option string) (t : Z) : BlocksAuditor.Env := {|
  BlocksAuditor.findOneErr := readErr;
  BlocksAuditor.saveErr := None;
  BlocksAuditor.now := t
|}.

(** An environment whose save fails. *)
Definition saveDown (t : Z) : BlocksAuditor.Env := {|
  BlocksAuditor.findOneErr := None;
  BlocksAuditor.saveErr := Some "write failed";
  BlocksAuditor.now := t
|}.

Definition heightAt (h t : Z) : BlocksAuditor.NEMBlockHeight := {|
  BlocksAuditor.blockHeight := h;
  BlocksAuditor.moduleName := "sign-socket";
  BlocksAuditor.createdAt := t
|}.

(** [Math.random] returning one half every time. *)
Definition alwaysHalf : nat -> Q := fun _ => (1 # 2)%Q.

End Fixture.

(** * Properties *)

Open Scope list_scope.

(** ** Doubles: the few facts of IEEE arithmetic used below *)

Section Doubles.

Lemma Prim2SF_zero : Prim2SF 0 = S754_zero false.
Proof. reflexivity. Qed.

(** Adding to zero changes no comparison. *)
Lemma gtq_zero_plus (x c : float) : gtq (0 + x) c = gtq x c.
Proof.
  unfold gtq. rewrite !ltb_spec, add_spec, Prim2SF_zero.
  unfold SF64add, SFadd.
  destruct (Prim2SF x) as [s | s | | s m e]; try reflexivity.
  destruct s; destruct (Prim2SF c) as [s' | s' | | s' m' e']; reflexivity.
Qed.

(** Zero is not at or above a number that is above zero. *)
Lemma gtq_zero_not_geq (c : float) : gtq c 0 = true -> geq 0 c = false.
Proof.
  unfold gtq, geq. rewrite ltb_spec, leb_spec, Prim2SF_zero.
  destruct (Prim2SF c) as [s | s | | s m e]; try discriminate; try reflexivity;
    destruct s; try discriminate; reflexivity.
Qed.

(** Rounding keeps the sign. *)
Lemma binary_round_aux_sign (prec emax : Z) (sx : bool) (mx ex : Z)
    (lx : location) :
  match SpecFloat.binary_round_aux prec emax sx mx ex lx with
  | S754_zero s | S754_infinity s | S754_finite s _ _ => s = sx
  | S754_nan => True
  end.
Proof.
  unfold SpecFloat.binary_round_aux.
  destruct (shr_fexp prec emax mx ex lx) as [mrs' e'].
  destruct (shr_fexp prec emax _ e' loc_Exact) as [mrs'' e''].
  destruct (shr_m mrs''); try exact I; try reflexivity.
  destruct (_ <=? _)%Z; reflexivity.
Qed.

Lemma ltq_zero_iff (x : float) :
  ltq x 0 = false <->
  match Prim2SF x with
  | S754_infinity true | S754_finite true _ _ => False
  | _ => True
  end.
Proof.
  unfold ltq. rewrite ltb_spec, Prim2SF_zero.
  destruct (Prim2SF x) as [s | s | | s m e]; simpl; try tauto;
    destruct s; simpl; split; try tauto; try discriminate; auto.
Qed.

Lemma gtq_zero_iff (x : float) :
  gtq x 0 = true <->
  match Prim2SF x with
  | S754_infinity false | S754_finite false _ _ => True
  | _ => False
  end.
Proof.
  unfold gtq. rewrite ltb_spec, Prim2SF_zero.
  destruct (Prim2SF x) as [s | s | | s m e]; simpl;
    try (split; [discriminate | tauto]);
    destruct s; simpl; split; try tauto; try discriminate; auto.
Qed.

(** A product of two numbers that are not below zero is not below zero. *)
Lemma mul_not_negative (x y : float) :
  ltq x 0 = false -> ltq y 0 = false -> ltq (x * y) 0 = false.
Proof.
  rewrite !ltq_zero_iff, mul_spec. unfold SF64mul, SFmul.
  destruct (Prim2SF x) as [s | s | | s m e], (Prim2SF y) as [s' | s' | | s' m' e'];
    simpl; try tauto;
    try (destruct s; try tauto; destruct s'; simpl; tauto).
  destruct s; [tauto |]. destruct s'; [tauto |]. intros _ _. simpl.
  pose proof (binary_round_aux_sign prec emax false (Z.pos (m * m')) (e + e')
                loc_Exact) as H.
  destruct (SpecFloat.binary_round_aux _ _ _ _ _ _) as [t | t | | t ? ?];
    simpl; auto; subst t; exact I.
Qed.

(** So is the quotient of such a number by a number above zero. *)
Lemma div_not_negative (x y : float) :
  ltq x 0 = false -> gtq y 0 = true -> ltq (x / y) 0 = false.
Proof.
  rewrite !ltq_zero_iff, gtq_zero_iff, div_spec. unfold SF64div, SFdiv.
  destruct (Prim2SF x) as [s | s | | s m e], (Prim2SF y) as [s' | s' | | s' m' e'];
    simpl; try tauto;
    try (destruct s; try tauto; destruct s'; simpl; tauto).
  destruct s; [tauto |]. destruct s'; [tauto |]. intros _ _. simpl.
  destruct (SFdiv_core_binary _ _ _ _ _ _) as [[mz ez] lz].
  pose proof (binary_round_aux_sign prec emax false mz ez lz) as H.
  destruct (SpecFloat.binary_round_aux _ _ _ _ _ _) as [t | t | | t ? ?];
    simpl; auto; subst t; exact I.
Qed.

End Doubles.

(** ** service.js: hash and amount readers *)

Section ServiceFacts.
Context {sdk : NemSDK} {js : JSEngine}.

Lemma stripLastSegment_no_colon (s : string) :
  hasColon s = false -> stripLastSegment s = s.
Proof.
  induction s as [| c s IH]; simpl; [reflexivity |].
  intros H. apply orb_false_iff in H as [Hc Hs].
  rewrite Hc. simpl. now rewrite IH.
Qed.

(** On a slug [ns:nm] the first pattern leaves the namespace ... *)
Lemma stripLastSegment_slug (ns nm : string) :
  hasColon nm = false -> nm <> "" ->
  stripLastSegment (ns ++ String colon nm)%string = ns.
Proof.
  intros Hnm Hne. induction ns as [| c ns IH]; simpl.
  - rewrite Hnm. destruct nm; [congruence | reflexivity].
  - rewrite IH.
    assert (Hc : hasColon (ns ++ String colon nm)%string = true).
    { clear. induction ns as [| d ns IH]; simpl.
      - reflexivity.
      - rewrite IH. apply orb_true_r. }
    rewrite Hc. now rewrite andb_false_r.
Qed.

(** ... and the second one the name. *)
Lemma stripFirstSegment_slug (ns nm : string) :
  hasColon ns = false -> ns <> "" ->
  stripFirstSegment (ns ++ String colon nm)%string = nm.
Proof.
  intros Hns Hne. destruct ns as [| c ns]; [congruence |].
  simpl in *. apply orb_false_iff in Hns as [Hc Hs]. rewrite Hc.
  assert (H : afterFirstColon (ns ++ String colon nm)%string = Some nm).
  { clear Hne Hc. induction ns as [| d ns IH]; simpl.
    - reflexivity.
    - simpl in Hs. apply orb_false_iff in Hs as [Hd Hs]. rewrite Hd. now apply IH. }
  now rewrite H.
Qed.

(** [lookupMosaic] returns the first mosaic of the list whose identifier
    is exactly the pair looked up. *)
Lemma lookupMosaic_Some (ns nm : string) (ms : list Mosaic) (m : Mosaic) :
  Service.lookupMosaic ns nm ms = Some m <->
  exists before after,
    ms = (before ++ m :: after) /\
    namespaceId (mosaicId m) = ns /\ name (mosaicId m) = nm /\
    forall x, In x before ->
      ~ (namespaceId (mosaicId x) = ns /\ name (mosaicId x) = nm).
Proof.
  induction ms as [| a ms IH]; simpl.
  - split; [discriminate |]. intros (b & af & H & _). now destruct b.
  - destruct (String.eqb_spec (namespaceId (mosaicId a)) ns) as [Hn | Hn];
      [destruct (String.eqb_spec (name (mosaicId a)) nm) as [Hm | Hm] |]; simpl.
    + split.
      * intros [= <-]. exists [], ms. split; [reflexivity |].
        split; [assumption |]. split; [assumption |]. intros x [].
      * intros (b & af & H & Hns & Hnm & Hb). destruct b as [| b0 b].
        -- simpl in H. now inversion H.
        -- simpl in H. inversion H; subst b0. exfalso.
           apply (Hb a); [now left | auto].
    + rewrite IH. split.
      * intros (b & af & -> & Hns & Hnm & Hb). exists (a :: b), af.
        split; [reflexivity |]. split; [assumption |]. split; [assumption |].
        intros x [<- | Hx]; [intros [_ ?]; auto | auto].
      * intros (b & af & H & Hns & Hnm & Hb). destruct b as [| b0 b].
        -- simpl in H. inversion H; subst a. congruence.
        -- simpl in H. inversion H; subst. exists b, af.
           split; [reflexivity |]. split; [congruence |]. split; [congruence |].
           intros x Hx. apply Hb. now right.
    + rewrite IH. split.
      * intros (b & af & -> & Hns & Hnm & Hb). exists (a :: b), af.
        split; [reflexivity |]. split; [assumption |]. split; [assumption |].
        intros x [<- | Hx]; [intros [? _]; auto | auto].
      * intros (b & af & H & Hns & Hnm & Hb). destruct b as [| b0 b].
        -- simpl in H. inversion H; subst a. congruence.
        -- simpl in H. inversion H; subst. exists b, af.
           split; [reflexivity |]. split; [congruence |]. split; [congruence |].
           intros x Hx. apply Hb. now right.
Qed.

Lemma lookupMosaic_None (ns nm : string) (ms : list Mosaic) :
  Service.lookupMosaic ns nm ms = None <->
  forall x, In x ms ->
    ~ (namespaceId (mosaicId x) = ns /\ name (mosaicId x) = nm).
Proof.
  induction ms as [| a ms IH]; simpl.
  - split; [intros _ x [] | reflexivity].
  - destruct (String.eqb_spec (namespaceId (mosaicId a)) ns) as [Hn | Hn];
      destruct (String.eqb_spec (name (mosaicId a)) nm) as [Hm | Hm]; simpl;
      try (rewrite IH; split;
           [ intros H x [<- | Hx]; [intros [? ?]; auto | auto]
           | intros H x Hx; apply H; now right ]).
    split; [discriminate |]. intros H. exfalso. apply (H a); auto.
Qed.

(** C10. [getTransactionHash] with [inner = true] returns
    [meta.innerHash.data] when the inner hash is there with a non-empty
    text; otherwise [meta.hash.data] when [meta.hash] is there; otherwise
    [meta.data]. *)
Theorem getTransactionHash_inner_first (p : TransactionMetaDataPair) :
  (forall ih d,
      innerHash (meta p) = Some ih -> data ih = Some d -> d <> "" ->
      Service.getTransactionHash p true = Some d) /\
  ((innerHash (meta p) = None \/
    exists ih, innerHash (meta p) = Some ih /\
               (data ih = None \/ data ih = Some "")) ->
   (forall h, hash (meta p) = Some h ->
              Service.getTransactionHash p true = data h) /\
   (hash (meta p) = None ->
    Service.getTransactionHash p true = meta_data (meta p))).
Proof.
  unfold Service.getTransactionHash. split.
  - intros ih d Hih Hd Hne. rewrite Hih, Hd.
    destruct (String.eqb_spec d ""); [contradiction | reflexivity].
  - intros [Hnone | (ih & Hih & [Hd | Hd])].
    + rewrite Hnone. split; [intros h -> | intros ->]; reflexivity.
    + rewrite Hih, Hd. split; [intros h -> | intros ->]; reflexivity.
    + rewrite Hih, Hd. simpl. split; [intros h -> | intros ->]; reflexivity.
Qed.

(** With [inner = false] the inner hash is never read. *)
Lemma getTransactionHash_outer (p : TransactionMetaDataPair) :
  Service.getTransactionHash p false =
  match hash (meta p) with Some h => data h | None => meta_data (meta p) end.
Proof. reflexivity. Qed.

(** C4, as the code has it.  For a transaction without mosaics (no list,
    or an empty one) and the default target nem:xem the amount is the raw
    amount field, not divided; with mosaics it is the raw amount divided
    by [Math.pow(10, divisibility)], times the quantity of the first
    mosaic whose namespace and name are exactly those of the slug, both
    operations being those of doubles; with mosaics none of which matches
    it is 0. *)
Theorem getTransactionAmount_policy
    (p : TransactionMetaDataPair) (rc : Transaction) (ns nm : string)
    (divisibility : float) :
  Service.realContent (transaction p) = Some rc ->
  hasColon ns = false -> ns <> "" -> hasColon nm = false -> nm <> "" ->
  ((mosaics rc = None \/ mosaics rc = Some []) ->
   Service.getTransactionAmount p "nem:xem" divisibility = Ok (amount rc)) /\
  (forall before m after,
      mosaics rc = Some (before ++ m :: after) ->
      Service.matchesSlug ns nm m ->
      (forall x, In x before -> ~ Service.matchesSlug ns nm x) ->
      Service.getTransactionAmount p (ns ++ String colon nm)%string divisibility =
      Ok (Some (toNumber (amount rc) / Math_pow 10 divisibility
                * quantity m)%float)) /\
  (forall ms,
      mosaics rc = Some ms -> ms <> [] ->
      (forall x, In x ms -> ~ Service.matchesSlug ns nm x) ->
      Service.getTransactionAmount p (ns ++ String colon nm)%string divisibility =
      Ok (Some 0%float)).
Proof.
  intros Hrc Hns Hns0 Hnm Hnm0. unfold Service.getTransactionAmount.
  rewrite Hrc. rewrite stripLastSegment_slug, stripFirstSegment_slug by assumption.
  split; [| split].
  - intros [H | H]; rewrite H; reflexivity.
  - intros before m after Hms Hm Hbefore. rewrite Hms.
    assert (Hfound : Service.lookupMosaic ns nm (before ++ m :: after) = Some m).
    { apply lookupMosaic_Some. exists before, after. destruct Hm. auto. }
    rewrite Hfound. destruct before; reflexivity.
  - intros ms Hms Hne Hnone. rewrite Hms.
    assert (Hnot : Service.lookupMosaic ns nm ms = None)
      by (now apply lookupMosaic_None).
    rewrite Hnot. destruct ms; [congruence | reflexivity].
Qed.

(** Without mosaics and with another target than nem:xem the amount is 0. *)
Lemma getTransactionAmount_other_target
    (p : TransactionMetaDataPair) (rc : Transaction) (slug : string)
    (divisibility : float) :
  Service.realContent (transaction p) = Some rc ->
  (mosaics rc = None \/ mosaics rc = Some []) ->
  slug <> "nem:xem" ->
  Service.getTransactionAmount p slug divisibility = Ok (Some 0%float).
Proof.
  intros Hrc Hm Hslug. unfold Service.getTransactionAmount. rewrite Hrc.
  destruct (String.eqb_spec slug "nem:xem"); [contradiction |].
  destruct Hm as [-> | ->]; reflexivity.
Qed.

End ServiceFacts.

(** The three cases of C10 on concrete metadata. *)
Lemma getTransactionHash_inner_first_witness :
  Service.getTransactionHash (Fixture.candidateABC "INITIATOR1") true = Some "ABC" /\
  Service.getTransactionHash (Fixture.plainPair (Fixture.transfer 1 None)) true
  = Some "PLAIN" /\
  Service.getTransactionHash
    {| meta := {| id := 7; hash := None; innerHash := None;
                  meta_data := Some "DATA" |};
       transaction := Fixture.transfer 1 None |} true = Some "DATA".
Proof.
  split; [| split].
  - apply (proj1 (getTransactionHash_inner_first
                    (Fixture.candidateABC "INITIATOR1"))
             {| data := Some "ABC" |} "ABC"); [reflexivity | reflexivity |].
    intros H; discriminate H.
  - apply (proj1 (proj2 (getTransactionHash_inner_first
                           (Fixture.plainPair (Fixture.transfer 1 None)))
                    (or_intror (ex_intro _ {| data := None |}
                                  (conj eq_refl (or_introl eq_refl)))))
             {| data := Some "PLAIN" |}).
    reflexivity.
  - apply (proj2 (proj2 (getTransactionHash_inner_first
                           {| meta := {| id := 7; hash := None; innerHash := None;
                                         meta_data := Some "DATA" |};
                              transaction := Fixture.transfer 1 None |})
                    (or_introl eq_refl))).
    reflexivity.
Defined.

(** C4 on the example of the specification: multiplier 3, divisibility 6
    and a matching quantity of 2,000,000 give 6, on an engine whose
    [Math.pow(10, 6)] is 1,000,000. *)
Lemma getTransactionAmount_policy_witness :
  Math_pow (JSEngine := Fixture.js) 10 6 = 1000000%float /\
  Service.getTransactionAmount (sdk := Fixture.sdk) (js := Fixture.js)
    (Fixture.plainPair
       (Fixture.transfer 3 (Some [Fixture.otherMosaic 9; Fixture.xem 2000000])))
    "nem:xem" 6 = Ok (Some 6%float).
Proof.
  split; [reflexivity |].
  apply (proj1 (proj2
    (getTransactionAmount_policy (sdk := Fixture.sdk) (js := Fixture.js)
       (Fixture.plainPair
          (Fixture.transfer 3
             (Some [Fixture.otherMosaic 9; Fixture.xem 2000000])))
       (Fixture.transfer 3 (Some [Fixture.otherMosaic 9; Fixture.xem 2000000]))
       "nem" "xem" 6%float eq_refl eq_refl
       (fun H => match H with eq_refl => I end) eq_refl
       (fun H => match H with eq_refl => I end)))
    [Fixture.otherMosaic 9] (Fixture.xem 2000000) []).
  - reflexivity.
  - split; reflexivity.
  - intros x [<- | []] [H _]. discriminate H.
Defined.

(** The amount with mosaics is what doubles give, rounding included: raw
    amount 20 and a matching quantity of 5,000,000 at divisibility 6 give
    the double next above 100. *)
Lemma getTransactionAmount_rounds_as_doubles :
  exists q,
    Service.getTransactionAmount (sdk := Fixture.sdk) (js := Fixture.js)
      (Fixture.plainPair (Fixture.transfer 20 (Some [Fixture.xem 5000000])))
      "nem:xem" 6 = Ok (Some q) /\
    q = next_up 100 /\ gtq q 100 = true.
Proof. eexists. split; [reflexivity |]. split; reflexivity. Qed.

(** C4 as stated fails on its own example: a transfer without mosaics
    and raw amount 5,000,000 yields 5,000,000, not 5. *)
Lemma getTransactionAmount_raw_amount_not_divided :
  exists q,
    Service.getTransactionAmount (sdk := Fixture.sdk) (js := Fixture.js)
      (Fixture.plainPair (Fixture.transfer 5000000 None)) "nem:xem" 6
    = Ok (Some q) /\
    (q =? 5000000)%float = true /\ (q =? 5)%float = false.
Proof.
  eexists. split; [reflexivity |]. split; reflexivity.
Defined.

(** ** multisig-cosignatory.js: the co-signing pipeline *)

Section CosignatoryFacts.
Context {sdk : NemSDK} {js : JSEngine} {db : Database}.
Import MultisigCosignatory.

Ltac run_js :=
  unfold bind, ret, throw, tryCatch, liftResult, gets, modify,
    log, save, announce in *; simpl in *.

Lemma isAcceptedCosignatory_iff (instance : Instance) (key : string) :
  isAcceptedCosignatory instance key = true <->
  inAllowList (acceptFrom (config instance)) key.
Proof.
  unfold isAcceptedCosignatory, inAllowList.
  destruct (acceptFrom (config instance)) as [s | l].
  - apply String.eqb_eq.
  - rewrite existsb_exists. split.
    + intros (x & Hin & Heq). apply String.eqb_eq in Heq. now subst.
    + intros Hin. exists key. split; [assumption | apply String.eqb_refl].
Qed.

Lemma not_accepted (instance : Instance) (key : string) :
  ~ inAllowList (acceptFrom (config instance)) key ->
  isAcceptedCosignatory instance key = false.
Proof.
  intros H. destruct (isAcceptedCosignatory instance key) eqn:E; [| reflexivity].
  exfalso. now apply H, isAcceptedCosignatory_iff.
Qed.

(** The synchronous part of [signTransaction], case by case. *)
Lemma signTransaction_run (instance : Instance) (p : TransactionMetaDataPair)
    (w : World) :
  signTransaction instance p w =
  if isPrivateKeyValid (Service.getBotSignSecret (blockchain_ instance)) then
    match verifyTransaction instance p with
    | Ok true =>
        (Ok tt,
         withAnnounced (Service.node_ (blockchain_ instance))
           (signatureBroadcastable
              (Service.getBotSignSecret (blockchain_ instance))
              (Service.getBotSignMultisigWallet (blockchain_ instance))
              (Service.getTransactionHash p true)
              (Service.networkId (blockchain_ instance))) w)
    | Ok false => (Throw invalidPair, w)
    | Throw e => (Throw e, w)
    end
  else (Throw invalidPrivateKey, w).
Proof.
  unfold signTransaction.
  destruct (isPrivateKeyValid _); simpl; [| reflexivity].
  run_js. destruct (verifyTransaction instance p) as [[|] | e]; reflexivity.
Qed.

Lemma signAndSave_run (instance : Instance) (env : Env)
    (p : TransactionMetaDataPair) (trxAmount : option float) (w : World) :
  signAndSave instance env p trxAmount w =
  if isPrivateKeyValid (Service.getBotSignSecret (blockchain_ instance)) then
    match verifyTransaction instance p with
    | Ok true =>
        announceThen p (saveCallback instance env p trxAmount) (announceReply env)
          (withAnnounced (Service.node_ (blockchain_ instance))
             (signatureBroadcastable
                (Service.getBotSignSecret (blockchain_ instance))
                (Service.getBotSignMultisigWallet (blockchain_ instance))
                (Service.getTransactionHash p true)
                (Service.networkId (blockchain_ instance))) w)
    | Ok false => (Ok tt, withLogged (LogSigningAborted invalidPair) w)
    | Throw e => (Ok tt, withLogged (LogSigningAborted e) w)
    end
  else (Ok tt, withLogged (LogSigningAborted invalidPrivateKey) w).
Proof.
  unfold signAndSave, bind at 1, tryCatch, bind at 1.
  rewrite signTransaction_run.
  destruct (isPrivateKeyValid _); [| reflexivity].
  destruct (verifyTransaction instance p) as [[|] | e]; reflexivity.
Qed.

(** The reply handlers with the handler's callback, case by case. *)
Lemma announceThen_run (instance : Instance) (env : Env)
    (p : TransactionMetaDataPair) (trxAmount : option float) (reply : AnnounceReply)
    (w : World) :
  announceThen p (saveCallback instance env p trxAmount) reply w =
  match reply with
  | Resolved res =>
      if 2 <=? code res then (Ok tt, withLogged (LogAnnounceError (message res)) w)
      else if ("SUCCESS" =? message res)%string then
        match nemsocket_ instance with
        | Some sock =>
            (Ok tt,
             withSaved (newSignedTransaction instance env p trxAmount sock)
               (withLogged
                  (LogCoSigned (Service.getTransactionHash p true) (message res)) w))
        | None =>
            (Throw (TypeError "instance.nemsocket_.socketpt"),
             withLogged
               (LogCoSigned (Service.getTransactionHash p true) (message res)) w)
        end
      else (Ok tt, w)
  | Rejected err => (Ok tt, withLogged (LogSigningError err) w)
  end.
Proof.
  unfold announceThen, saveCallback. destruct reply as [res | err]; [| reflexivity].
  destruct (2 <=? code res); [reflexivity |].
  destruct ("SUCCESS" =? message res)%string; [| reflexivity].
  run_js. destruct (nemsocket_ instance); reflexivity.
Qed.

(** The callback of [aggregate], case by case. *)
Lemma aggregateCallback_run (instance : Instance) (env : Env)
    (p : TransactionMetaDataPair) (aggregateData : option float) (w : World) :
  aggregateCallback instance env p aggregateData w =
  let dailyAmt := dailyAmtOf aggregateData in
  let dailyMax := dailyAmount (config instance) in
  if gtq dailyMax 0 && geq dailyAmt dailyMax
  then (Ok tt, withLogged (LogLimitReached dailyMax) w)
  else match Service.getTransactionAmountXEM p with
       | Throw e => (Throw e, w)
       | Ok trxAmount =>
           if gtq dailyMax 0 && gtq (dailyAmt + toNumber trxAmount)%float dailyMax
           then (Ok tt,
                 withLogged
                   (LogLimitWouldBePassed (dailyAmt + toNumber trxAmount)%float) w)
           else signAndSave instance env p trxAmount w
       end.
Proof.
  unfold aggregateCallback. cbv zeta.
  destruct (gtq (dailyAmount (config instance)) 0
            && geq (dailyAmtOf aggregateData) (dailyAmount (config instance)));
    [reflexivity |].
  unfold bind at 1, liftResult.
  destruct (Service.getTransactionAmountXEM p) as [a | e]; [| reflexivity].
  destruct (gtq (dailyAmount (config instance)) 0
            && gtq (dailyAmtOf aggregateData + toNumber a)%float
                 (dailyAmount (config instance)));
    reflexivity.
Qed.

(** The handler, case by case on what [findOne] delivers. *)
Lemma handler_run (instance : Instance) (env : Env)
    (p : TransactionMetaDataPair) (w : World) :
  automaticTransactionSigningHandler instance env p w =
  match findOneResult (findOneErr env) (Service.getTransactionHash p true) w with
  | (None, Some _) => (Ok tt, w)
  | (Some err, _) => (Ok tt, withLogged (LogDatabaseError err) w)
  | (None, None) =>
      aggregateCallback instance env p (aggregateResult (aggregateErr env) w) w
  end.
Proof.
  unfold automaticTransactionSigningHandler, findOne, aggregate.
  unfold bind at 1, gets at 1.
  destruct (findOneResult _ _ w) as [[err |] [t |]]; try reflexivity.
Qed.

(** What one run of [signAndSave] can do to the store and to the
    announce requests: nothing; one request; or one request and one
    record, the latter only on a reply that is no failure and says
    SUCCESS. *)
Lemma signAndSave_effect (instance : Instance) (env : Env)
    (p : TransactionMetaDataPair) (trxAmount : option float) (w : World) :
  let out := signAndSave instance env p trxAmount w in
  (signedTransactions (snd out) = signedTransactions w /\
   announced (snd out) = announced w) \/
  (exists b,
      announced (snd out) = announced w ++ [b] /\
      (signedTransactions (snd out) = signedTransactions w \/
       exists sock res,
         nemsocket_ instance = Some sock /\
         announceReply env = Resolved res /\
         code res < 2 /\ message res = "SUCCESS" /\
         signedTransactions (snd out) =
         signedTransactions w ++ [newSignedTransaction instance env p trxAmount sock])).
Proof.
  cbv zeta. rewrite signAndSave_run.
  destruct (isPrivateKeyValid _); [| left; split; reflexivity].
  destruct (verifyTransaction instance p) as [[|] | e];
    try (left; split; reflexivity).
  right. eexists. rewrite announceThen_run.
  destruct (announceReply env) as [res | err]; [| split; [reflexivity | left; reflexivity]].
  destruct (Z.leb_spec 2 (code res)); [split; [reflexivity | left; reflexivity] |].
  destruct (String.eqb_spec "SUCCESS" (message res)) as [Hs | Hs];
    [| split; [reflexivity | left; reflexivity]].
  destruct (nemsocket_ instance) as [sock |] eqn:Hsock;
    [| split; [reflexivity | left; reflexivity]].
  split; [reflexivity |]. right. exists sock, res. auto.
Qed.

Lemma handler_effect (instance : Instance) (env : Env)
    (p : TransactionMetaDataPair) (w : World) :
  let out := automaticTransactionSigningHandler instance env p w in
  (signedTransactions (snd out) = signedTransactions w /\
   announced (snd out) = announced w) \/
  (exists b,
      announced (snd out) = announced w ++ [b] /\
      (signedTransactions (snd out) = signedTransactions w \/
       exists sock res trxAmount,
         nemsocket_ instance = Some sock /\
         announceReply env = Resolved res /\
         code res < 2 /\ message res = "SUCCESS" /\
         signedTransactions (snd out) =
         signedTransactions w ++ [newSignedTransaction instance env p trxAmount sock])).
Proof.
  cbv zeta. rewrite handler_run.
  destruct (findOneResult _ _ w) as [[err |] [t |]];
    try (left; split; reflexivity).
  rewrite aggregateCallback_run. cbv zeta.
  destruct (gtq _ 0 && geq _ _); [left; split; reflexivity |].
  destruct (Service.getTransactionAmountXEM p) as [a | e];
    [| left; split; reflexivity].
  destruct (gtq _ 0 && gtq _ _); [left; split; reflexivity |].
  destruct (signAndSave_effect instance env p a w) as [H | (b & Hb & [H | H])].
  - now left.
  - right. exists b. split; [assumption | now left].
  - right. exists b. split; [assumption |]. right.
    destruct H as (sock & res & H). exists sock, res, a. exact H.
Qed.

(** C2. A candidate whose initiating signer is not in the allow-list is
    never verified, [signTransaction] throws on it before anything is
    announced, and the handler neither announces nor stores a record for
    it, whatever its amount and its account. *)
Theorem unlisted_signer_never_signed (instance : Instance)
    (p : TransactionMetaDataPair) :
  ~ inAllowList (acceptFrom (config instance)) (signer (transaction p)) ->
  verifyTransaction instance p <> Ok true /\
  (Service.realContent (transaction p) <> None ->
   verifyTransaction instance p = Ok false) /\
  (forall w, exists e, signTransaction instance p w = (Throw e, w)) /\
  (forall env w,
      let out := automaticTransactionSigningHandler instance env p w in
      signedTransactions (snd out) = signedTransactions w /\
      announced (snd out) = announced w).
Proof.
  intros Hnot. apply not_accepted in Hnot.
  assert (Hv : verifyTransaction instance p = Ok false \/
               exists e, verifyTransaction instance p = Throw e).
  { unfold verifyTransaction.
    destruct (if type (transaction p) =? multisigTransaction
              then otherTrans (transaction p) else Some (transaction p));
      [left | right; eexists; reflexivity].
    rewrite Hnot. reflexivity. }
  split; [| split; [| split]].
  - destruct Hv as [-> | [e ->]]; discriminate.
  - unfold Service.realContent, verifyTransaction.
    destruct (if type (transaction p) =? multisigTransaction
              then otherTrans (transaction p) else Some (transaction p));
      [intros _ | congruence].
    rewrite Hnot. reflexivity.
  - intros w. rewrite signTransaction_run.
    destruct (isPrivateKeyValid _); [| eexists; reflexivity].
    destruct Hv as [-> | [e ->]]; eexists; reflexivity.
  - intros env w. cbv zeta. rewrite handler_run.
    destruct (findOneResult _ _ w) as [[err |] [t |]];
      try (split; reflexivity).
    rewrite aggregateCallback_run. cbv zeta.
    destruct (gtq _ 0 && geq _ _); [split; reflexivity |].
    destruct (Service.getTransactionAmountXEM p) as [a | e];
      [| split; reflexivity].
    destruct (gtq _ 0 && gtq _ _); [split; reflexivity |].
    rewrite signAndSave_run.
    destruct (isPrivateKeyValid _); [| split; reflexivity].
    destruct Hv as [-> | [e ->]]; split; reflexivity.
Qed.


(** The log is only written: two worlds with the same store and the same
    requests are handled alike. *)
Lemma handler_log_frame (instance : Instance) (env : Env)
    (p : TransactionMetaDataPair) (w1 w2 : World) :
  signedTransactions w1 = signedTransactions w2 ->
  announced w1 = announced w2 ->
  let o1 := automaticTransactionSigningHandler instance env p w1 in
  let o2 := automaticTransactionSigningHandler instance env p w2 in
  fst o1 = fst o2 /\
  signedTransactions (snd o1) = signedTransactions (snd o2) /\
  announced (snd o1) = announced (snd o2).
Proof.
  destruct w1 as [s1 a1 l1], w2 as [s2 a2 l2]. simpl. intros -> ->.
  rewrite !handler_run. unfold findOneResult, aggregateResult. simpl.
  destruct (findOneErr env); [auto |].
  destruct (find _ s2); [auto |].
  rewrite !aggregateCallback_run. cbv zeta.
  destruct (gtq _ 0 && geq _ _); [auto |].
  destruct (Service.getTransactionAmountXEM p) as [a | e]; [| auto].
  destruct (gtq _ 0 && gtq _ _); [auto |].
  rewrite !signAndSave_run.
  destruct (isPrivateKeyValid _); [| auto].
  destruct (verifyTransaction instance p) as [[|] | e]; auto.
  rewrite !announceThen_run.
  destruct (announceReply env) as [res | err]; [| auto].
  destruct (2 <=? code res); [auto |].
  destruct ("SUCCESS" =? message res)%string; [| auto].
  destruct (nemsocket_ instance); auto.
Qed.

(** C6. With a private key that the SDK does not accept,
    [signTransaction] throws before a signature is built or announced;
    the handler catches and logs that; it stores and announces nothing;
    it returns normally for every well-formed candidate; and a candidate
    handled afterwards is handled as if the failed attempt had not been
    made. *)
Theorem invalid_private_key_confined (instance : Instance) :
  isPrivateKeyValid (Service.getBotSignSecret (blockchain_ instance)) = false ->
  (forall p w, signTransaction instance p w = (Throw invalidPrivateKey, w)) /\
  (forall env p trxAmount w,
      signAndSave instance env p trxAmount w =
      (Ok tt, withLogged (LogSigningAborted invalidPrivateKey) w)) /\
  (forall env p w,
      let out := automaticTransactionSigningHandler instance env p w in
      signedTransactions (snd out) = signedTransactions w /\
      announced (snd out) = announced w /\
      (Service.realContent (transaction p) <> None -> fst out = Ok tt)) /\
  (forall env1 p1 env2 p2 w,
      let w1 := snd (automaticTransactionSigningHandler instance env1 p1 w) in
      let after := automaticTransactionSigningHandler instance env2 p2 w1 in
      let alone := automaticTransactionSigningHandler instance env2 p2 w in
      fst after = fst alone /\
      signedTransactions (snd after) = signedTransactions (snd alone) /\
      announced (snd after) = announced (snd alone)).
Proof.
  intros Hkey.
  assert (Hsign : forall env p trxAmount w,
             signAndSave instance env p trxAmount w =
             (Ok tt, withLogged (LogSigningAborted invalidPrivateKey) w)).
  { intros. rewrite signAndSave_run, Hkey. reflexivity. }
  assert (Hhandler : forall env p w,
             let out := automaticTransactionSigningHandler instance env p w in
             signedTransactions (snd out) = signedTransactions w /\
             announced (snd out) = announced w /\
             (Service.realContent (transaction p) <> None -> fst out = Ok tt)).
  { intros env p w. cbv zeta. rewrite handler_run.
    destruct (findOneResult _ _ w) as [[err |] [t |]]; try (simpl; tauto).
    rewrite aggregateCallback_run. cbv zeta.
    destruct (gtq _ 0 && geq _ _); [simpl; tauto |].
    unfold Service.getTransactionAmountXEM, Service.getTransactionAmount.
    destruct (Service.realContent (transaction p)) as [rc |];
      [| simpl; split; [| split]; [reflexivity | reflexivity | congruence]].
    match goal with
    | |- context [match ?x with Ok _ => _ | Throw _ => _ end] =>
        destruct x as [a | e] eqn:Ha
    end.
    - destruct (gtq _ 0 && gtq _ _); [simpl; tauto |].
      rewrite Hsign. simpl. tauto.
    - exfalso. revert Ha.
      repeat match goal with
             | |- context [if ?c then _ else _] => destruct c
             | |- context [match ?c with Some _ => _ | None => _ end] => destruct c
             end; discriminate. }
  split; [| split; [| split]].
  - intros p w. rewrite signTransaction_run, Hkey. reflexivity.
  - exact Hsign.
  - exact Hhandler.
  - intros env1 p1 env2 p2 w. cbv zeta.
    destruct (Hhandler env1 p1 w) as (Hs & Ha & _).
    apply handler_log_frame; assumption.
Qed.

(** The [dailyAmt] the handler works with is the aggregate the read
    delivers when that is above zero, and zero when the read fails, when
    nothing is stored, or when the aggregate is not above zero. *)
Lemma dailyAmt_is_aggregate (err : option string) (w : World) :
  let total := sumAmountXEM (map amountXEM (signedTransactions w)) in
  let A := dailyAmtOf (aggregateResult err w) in
  (err = None -> signedTransactions w <> [] -> gtq total 0 = true -> A = total) /\
  (err <> None \/ signedTransactions w = [] \/ gtq total 0 = false ->
   A = 0%float).
Proof.
  cbv zeta. unfold aggregateResult, dailyAmtOf. split.
  - intros -> Hne Hpos. destruct (signedTransactions w) as [| t l] eqn:E;
      [congruence |]. now rewrite Hpos.
  - intros [Herr | [Hnil | Hneg]].
    + destruct err; [reflexivity | congruence].
    + rewrite Hnil. now destruct err.
    + destruct err; [reflexivity |].
      destruct (signedTransactions w) as [| t l]; [reflexivity |].
      now rewrite Hneg.
Qed.

(** C3, as the code has it.  For a candidate that has no record (the
    lookup succeeding), with the aggregate read succeeding and the amount
    [a] extracted: with a ceiling C above zero and A the aggregate of the
    stored amounts the read delivers (zero when nothing is stored or the
    aggregate is not above zero), the handler rejects with a limit entry
    in the log, storing and announcing nothing, exactly when [A >= C] or
    [A + a > C] hold in the engine's arithmetic of doubles; and it goes
    on to signing exactly when neither holds. *)
Theorem daily_limit_decides (instance : Instance) (env : Env)
    (p : TransactionMetaDataPair) (a : option float) (w : World) :
  let C := dailyAmount (config instance) in
  let total := sumAmountXEM (map amountXEM (signedTransactions w)) in
  let A := dailyAmtOf (aggregateResult None w) in
  let rejected := geq A C || gtq (A + toNumber a)%float C in
  gtq C 0 = true ->
  findOneResult (findOneErr env) (Service.getTransactionHash p true) w
  = (None, None) ->
  aggregateErr env = None ->
  Service.getTransactionAmountXEM p = Ok a ->
  (signedTransactions w <> [] -> gtq total 0 = true -> A = total) /\
  (signedTransactions w = [] \/ gtq total 0 = false -> A = 0%float) /\
  (rejected = true ->
   exists entry,
     automaticTransactionSigningHandler instance env p w
     = (Ok tt, withLogged entry w) /\
     (entry = LogLimitReached C \/
      entry = LogLimitWouldBePassed (A + toNumber a)%float)) /\
  (rejected = false ->
   automaticTransactionSigningHandler instance env p w
   = signAndSave instance env p a w).
Proof.
  intros C total A rejected HC Hfind Hagg Ha.
  destruct (dailyAmt_is_aggregate None w) as [Hsum Hzero].
  split; [exact (Hsum eq_refl) |]. split; [intros H; apply Hzero; auto |].
  rewrite handler_run, Hfind, Hagg, aggregateCallback_run, Ha. cbv zeta.
  fold C A. rewrite HC, !andb_true_l. subst rejected.
  destruct (geq A C) eqn:Hge; simpl.
  - split; [| discriminate].
    intros _. eexists. split; [reflexivity | now left].
  - destruct (gtq (A + toNumber a) C) eqn:Hgt.
    + split; [| discriminate].
      intros _. eexists. split; [reflexivity | now right].
    + split; [discriminate | reflexivity].
Qed.

(** Whatever the read delivers, the decision is the one on the clamped
    aggregate [dailyAmtOf]. *)
Lemma daily_limit_on_clamped (instance : Instance) (env : Env)
    (p : TransactionMetaDataPair) (aggregateData : option float)
    (a : option float) (w : World) :
  let C := dailyAmount (config instance) in
  let A := dailyAmtOf aggregateData in
  gtq C 0 = true ->
  Service.getTransactionAmountXEM p = Ok a ->
  (geq A C || gtq (A + toNumber a)%float C = true ->
   exists entry,
     aggregateCallback instance env p aggregateData w = (Ok tt, withLogged entry w)) /\
  (geq A C || gtq (A + toNumber a)%float C = false ->
   aggregateCallback instance env p aggregateData w
   = signAndSave instance env p a w).
Proof.
  intros C A HC Ha. rewrite aggregateCallback_run, Ha. cbv zeta. fold C A.
  rewrite HC, !andb_true_l.
  destruct (geq A C) eqn:Hge; simpl.
  - split; [intros _; eexists; reflexivity | discriminate].
  - destruct (gtq (A + toNumber a) C) eqn:Hgt.
    + split; [intros _; eexists; reflexivity | discriminate].
    + split; [discriminate | reflexivity].
Qed.

(** Without a ceiling above zero nothing is limited. *)
Lemma no_ceiling_no_limit (instance : Instance) (env : Env)
    (p : TransactionMetaDataPair) (aggregateData : option float)
    (a : option float) (w : World) :
  gtq (dailyAmount (config instance)) 0 = false ->
  Service.getTransactionAmountXEM p = Ok a ->
  aggregateCallback instance env p aggregateData w
  = signAndSave instance env p a w.
Proof.
  intros HC Ha. rewrite aggregateCallback_run, Ha. cbv zeta.
  rewrite HC. reflexivity.
Qed.

(** [verifyTransaction] accepts exactly the candidates of a listed
    initiator whose real account is the configured multisig address. *)
Lemma verifyTransaction_true_iff (instance : Instance)
    (p : TransactionMetaDataPair) :
  verifyTransaction instance p = Ok true <->
  exists real,
    Service.realContent (transaction p) = Some real /\
    inAllowList (acceptFrom (config instance)) (signer (transaction p)) /\
    removeHyphens (toAddress (signer real) (Service.networkId (blockchain_ instance)))
    = multisigAddress (config instance).
Proof.
  unfold verifyTransaction, Service.realContent.
  destruct (if type (transaction p) =? multisigTransaction
            then otherTrans (transaction p) else Some (transaction p)) as [real |].
  - destruct (isAcceptedCosignatory instance (signer (transaction p))) eqn:Hacc; simpl.
    + apply isAcceptedCosignatory_iff in Hacc.
      destruct (String.eqb_spec
                  (removeHyphens
                     (toAddress (signer real) (Service.networkId (blockchain_ instance))))
                  (multisigAddress (config instance))) as [Heq | Hneq]; simpl.
      * split; [intros _; exists real; auto | reflexivity].
      * split; [discriminate | intros (r & [= <-] & _ & H); contradiction].
    + split; [discriminate |]. intros (r & _ & Hin & _).
      apply isAcceptedCosignatory_iff in Hin. congruence.
  - split; [discriminate | intros (r & H & _); discriminate H].
Qed.



Lemma find_of_filter {A} (f : A -> bool) (l : list A) :
  filter f l <> [] -> exists x, find f l = Some x.
Proof.
  induction l as [| a l IH]; simpl; [congruence |].
  destruct (f a); [intros _; now exists a | exact IH].
Qed.



(** At most one record and one request come out of one invocation. *)
Lemma handler_at_most_one (instance : Instance) (env : Env)
    (p : TransactionMetaDataPair) (w : World) :
  let out := automaticTransactionSigningHandler instance env p w in
  (length (signedTransactions (snd out)) <= S (length (signedTransactions w)))%nat /\
  (length (announced (snd out)) <= S (length (announced w)))%nat.
Proof.
  cbv zeta.
  destruct (handler_effect instance env p w) as [[Hs Ha] | (b & Hb & [Hs | Hs])].
  - rewrite Hs, Ha. lia.
  - rewrite Hs, Hb, length_app. simpl. lia.
  - destruct Hs as (sock & res & amt & _ & _ & _ & _ & Hs).
    rewrite Hs, Hb, !length_app. simpl. lia.
Qed.

End CosignatoryFacts.

(** *** Concrete runs of the pipeline *)



(** C2 on a candidate of an unlisted initiator, all else as in the
    end-to-end scenario. *)
Lemma unlisted_signer_never_signed_witness :
  let i := Fixture.instance Fixture.goodKey 100 in
  let p := Fixture.candidateABC "STRANGER" in
  let out := MultisigCosignatory.automaticTransactionSigningHandler
               (sdk := Fixture.sdk) (js := Fixture.js) (db := Fixture.db)
               i (Fixture.env Fixture.success 1000) p
               Fixture.emptyWorld in
  ~ MultisigCosignatory.inAllowList
      (acceptFrom (MultisigCosignatory.config i)) (signer (transaction p)) /\
  MultisigCosignatory.verifyTransaction (sdk := Fixture.sdk) i p = Ok false /\
  MultisigCosignatory.signedTransactions (snd out) = [] /\
  MultisigCosignatory.announced (snd out) = [].
Proof.
  cbv zeta.
  assert (Hnot : ~ MultisigCosignatory.inAllowList
                     (acceptFrom (MultisigCosignatory.config
                                    (Fixture.instance Fixture.goodKey 100)))
                     (signer (transaction (Fixture.candidateABC "STRANGER")))).
  { simpl. intros [H | [H | []]]; discriminate H. }
  destruct (unlisted_signer_never_signed
              (sdk := Fixture.sdk) (js := Fixture.js) (db := Fixture.db)
              (Fixture.instance Fixture.goodKey 100)
              (Fixture.candidateABC "STRANGER") Hnot)
    as (_ & Hfalse & _ & Hhandler).
  destruct (Hhandler (Fixture.env Fixture.success 1000) Fixture.emptyWorld)
    as [Hs Ha].
  split; [exact Hnot |]. split; [| split; [exact Hs | exact Ha]].
  apply Hfalse. simpl. intros H. discriminate H.
Defined.

(** C3 with 60 stored under a ceiling of 100: a candidate of 10 goes on
    to signing, and a candidate of 50 is rejected, as 110 would pass the
    ceiling. *)
Lemma daily_limit_decides_witness :
  let i := Fixture.instance Fixture.goodKey 100 in
  let env := Fixture.env Fixture.success 1000 in
  let w := Fixture.worldWith [Fixture.signedRecord "OLD" 60] in
  let ten := Fixture.candidate "TEN" "INITIATOR1" 10 in
  let fifty := Fixture.candidate "FIFTY" "INITIATOR1" 50 in
  MultisigCosignatory.dailyAmtOf
    (MultisigCosignatory.aggregateResult (db := Fixture.db) None w) = 60%float /\
  MultisigCosignatory.automaticTransactionSigningHandler
    (sdk := Fixture.sdk) (js := Fixture.js) (db := Fixture.db) i env ten w
  = MultisigCosignatory.signAndSave (sdk := Fixture.sdk) i env ten
      (Some 10%float) w /\
  MultisigCosignatory.automaticTransactionSigningHandler
    (sdk := Fixture.sdk) (js := Fixture.js) (db := Fixture.db) i env fifty w
  = (Ok tt,
     MultisigCosignatory.withLogged
       (MultisigCosignatory.LogLimitWouldBePassed 110) w).
Proof.
  cbv zeta. split; [reflexivity |]. split.
  - apply (proj2 (proj2 (proj2
             (daily_limit_decides
                (sdk := Fixture.sdk) (js := Fixture.js) (db := Fixture.db)
                (Fixture.instance Fixture.goodKey 100)
                (Fixture.env Fixture.success 1000)
                (Fixture.candidate "TEN" "INITIATOR1" 10) (Some 10%float)
                (Fixture.worldWith [Fixture.signedRecord "OLD" 60])
                eq_refl eq_refl eq_refl eq_refl)))).
    reflexivity.
  - destruct (proj1 (proj2 (proj2
                (daily_limit_decides
                   (sdk := Fixture.sdk) (js := Fixture.js) (db := Fixture.db)
                   (Fixture.instance Fixture.goodKey 100)
                   (Fixture.env Fixture.success 1000)
                   (Fixture.candidate "FIFTY" "INITIATOR1" 50) (Some 50%float)
                   (Fixture.worldWith [Fixture.signedRecord "OLD" 60])
                   eq_refl eq_refl eq_refl eq_refl))) eq_refl)
      as (entry & Hrun & [-> | ->]).
    + vm_compute in Hrun. discriminate Hrun.
    + exact Hrun.
Defined.

(** C3 as stated fails at the ceiling: with 100 stored under a ceiling of
    100, a candidate of amount 0 has A + a <= C and is rejected all the
    same, although it would have been signed and stored otherwise. *)
Lemma daily_limit_rejects_at_ceiling :
  let i := Fixture.instance Fixture.goodKey 100 in
  let p := Fixture.candidate "ZERO" "INITIATOR1" 0 in
  let env := Fixture.env Fixture.success 1000 in
  let w := Fixture.worldWith [Fixture.signedRecord "OLD" 100] in
  let A := MultisigCosignatory.dailyAmtOf
             (MultisigCosignatory.aggregateResult (db := Fixture.db) None w) in
  Service.getTransactionAmountXEM (sdk := Fixture.sdk) (js := Fixture.js) p
  = Ok (Some 0%float) /\
  A = 100%float /\
  gtq (A + 0)%float (dailyAmount (MultisigCosignatory.config i)) = false /\
  geq (dailyAmount (MultisigCosignatory.config i)) (A + 0)%float = true /\
  MultisigCosignatory.automaticTransactionSigningHandler
    (sdk := Fixture.sdk) (js := Fixture.js) (db := Fixture.db) i env p w
  = (Ok tt,
     MultisigCosignatory.withLogged (MultisigCosignatory.LogLimitReached 100) w) /\
  length (MultisigCosignatory.announced
            (snd (MultisigCosignatory.signAndSave (sdk := Fixture.sdk) i env p
                    (Some 0%float) w)))
  = 1%nat /\
  length (MultisigCosignatory.signedTransactions
            (snd (MultisigCosignatory.signAndSave (sdk := Fixture.sdk) i env p
                    (Some 0%float) w)))
  = 2%nat.
Proof.
  cbv zeta. repeat split.
Defined.

(** The limit is decided on the sum doubles give: with 0.6 stored and a
    ceiling of 0.7, a candidate of 0.1 goes on to signing, the sum of
    the doubles 0.6 and 0.1 being the double 0.7 and not above it. *)
Lemma daily_limit_on_double_sum :
  let i := Fixture.instance Fixture.goodKey (7 / 10) in
  let env := Fixture.env Fixture.success 1000 in
  let p := Fixture.candidate "TENTH" "INITIATOR1" (1 / 10) in
  let w := Fixture.worldWith [Fixture.signedRecord "OLD" (6 / 10)] in
  MultisigCosignatory.automaticTransactionSigningHandler
    (sdk := Fixture.sdk) (js := Fixture.js) (db := Fixture.db) i env p w
  = MultisigCosignatory.signAndSave (sdk := Fixture.sdk) i env p
      (Some (1 / 10)%float) w /\
  (6 / 10 + 1 / 10 =? 7 / 10)%float = true.
Proof. split; reflexivity. Qed.



(** C6 with a key of five characters. *)
Lemma invalid_private_key_confined_witness :
  let i := Fixture.instance "short" 100 in
  let p := Fixture.candidateABC "INITIATOR1" in
  let out := MultisigCosignatory.automaticTransactionSigningHandler
               (sdk := Fixture.sdk) (js := Fixture.js) (db := Fixture.db)
               i (Fixture.env Fixture.success 1000) p
               Fixture.emptyWorld in
  isPrivateKeyValid (NemSDK := Fixture.sdk)
    (Service.getBotSignSecret (MultisigCosignatory.blockchain_ i)) = false /\
  fst out = Ok tt /\
  MultisigCosignatory.signedTransactions (snd out) = [] /\
  MultisigCosignatory.announced (snd out) = [] /\
  MultisigCosignatory.logged (snd out)
  = [MultisigCosignatory.LogSigningAborted MultisigCosignatory.invalidPrivateKey].
Proof.
  cbv zeta. split; [reflexivity |].
  destruct (invalid_private_key_confined
              (sdk := Fixture.sdk) (js := Fixture.js) (db := Fixture.db)
              (Fixture.instance "short" 100) eq_refl)
    as (_ & _ & Hhandler & _).
  destruct (Hhandler (Fixture.env Fixture.success 1000)
              (Fixture.candidateABC "INITIATOR1") Fixture.emptyWorld)
    as (Hs & Ha & Hok).
  split; [apply Hok; simpl; intros H; discriminate H |].
  split; [exact Hs |]. split; [exact Ha | reflexivity].
Defined.

(** ** blocks-auditor.js: heights, staleness and endpoint switching *)

Section AuditorFacts.
Import BlocksAuditor.




Lemma find_none_filter {A} (f : A -> bool) (l : list A) :
  find f l = None -> filter f l = [].
Proof.
  induction l as [| x l IH]; simpl; [reflexivity |].
  destruct (f x); [discriminate | exact IH].
Qed.

Lemma matchesQuery_iff (m : string) (h : Z) (b : NEMBlockHeight) :
  matchesQuery m h b = true <-> moduleName b = m /\ blockHeight b = h.
Proof.
  unfold matchesQuery. rewrite andb_true_iff, String.eqb_eq, Z.eqb_eq. tauto.
Qed.

(** Either delivery of a height, case by case. *)
Lemma deliverHeight_run (d : Delivery) (a : Auditor) (env : Env) (h : Z)
    (w : World) :
  deliverHeight d a env h w =
  let w0 := withEffect (LogNewBlock h) w in
  match findOneErr env with
  | Some _ => (Ok tt, w0)
  | None =>
      match find (matchesQuery (module_moduleName a) h) (blockHeights w) with
      | Some _ => (Ok tt, w0)
      | None =>
          match saveErr env with
          | Some e => (Ok tt, withEffect (LogSaveError e) w0)
          | None => (Ok tt, withBlock (newBlockHeight a env h) w0)
          end
      end
  end.
Proof.
  destruct d; unfold deliverHeight, newBlockListener, websocketFallbackHandler,
    heightAsked, heightCallback, findOne, saveBlock, emit, bind, ret, gets,
    modify; simpl;
    destruct (findOneErr env); simpl; try reflexivity;
    destruct (find _ (blockHeights w)); simpl; try reflexivity;
    destruct (saveErr env); reflexivity.
Qed.

Lemma heightsFor_withBlock (m : string) (h : Z) (b : NEMBlockHeight) (w : World) :
  heightsFor m h (withBlock b w) =
  heightsFor m h w ++ (if matchesQuery m h b then [b] else []).
Proof. unfold heightsFor. simpl. now rewrite filter_app. Qed.

(** C9, as the code has it.  For deliveries handled one after the other,
    each to the end of its callbacks before the next arrives: either path
    stores a height only when the module has no record of it; a height
    that has a record leaves the collection as it is; the collection only
    grows at its end, by the new record, so no record is changed or
    removed; a collection with at most one record per module and height
    stays so; and the same height delivered twice in sequence, by either
    path each time, leaves exactly one record of it when the lookup and
    the save of the first delivery succeed. *)
Theorem one_record_per_height (a : Auditor) (d1 d2 : Delivery)
    (env1 env2 : Env) (h : Z) (w : World) :
  let m := module_moduleName a in
  let w1 := snd (deliverHeight d1 a env1 h w) in
  let w2 := snd (deliverHeight d2 a env2 h w1) in
  (heightsFor m h w <> [] -> blockHeights w1 = blockHeights w) /\
  (blockHeights w1 = blockHeights w \/
   blockHeights w1 = blockHeights w ++ [newBlockHeight a env1 h]) /\
  ((forall m' h', (length (heightsFor m' h' w) <= 1)%nat) ->
   forall m' h', (length (heightsFor m' h' w1) <= 1)%nat) /\
  ((length (heightsFor m h w) <= 1)%nat ->
   findOneErr env1 = None -> saveErr env1 = None ->
   length (heightsFor m h w2) = 1%nat).
Proof.
  intros m w1 w2.
  assert (Hnew : matchesQuery m h (newBlockHeight a env1 h) = true).
  { apply matchesQuery_iff. split; reflexivity. }
  assert (Hcases :
            (blockHeights w1 = blockHeights w /\
             (findOneErr env1 = None -> saveErr env1 = None ->
              heightsFor m h w <> [])) \/
            (blockHeights w1 = blockHeights w ++ [newBlockHeight a env1 h] /\
             heightsFor m h w = [])).
  { subst w1. rewrite deliverHeight_run. cbv zeta.
    destruct (findOneErr env1); [left; split; [reflexivity | discriminate] |].
    destruct (find _ (blockHeights w)) as [b |] eqn:Hfind.
    - left. split; [reflexivity |]. intros _ _. unfold heightsFor. fold m in Hfind.
      apply find_some in Hfind as [Hin Hb]. intros Hnil.
      assert (Hf : In b (filter (matchesQuery m h) (blockHeights w)))
        by (apply filter_In; auto).
      rewrite Hnil in Hf. exact Hf.
    - destruct (saveErr env1); [left; split; [reflexivity | discriminate] |].
      right. split; [reflexivity |]. now apply find_none_filter. }
  assert (Hcount : forall m' h',
             heightsFor m' h' w1 = heightsFor m' h' w \/
             (heightsFor m' h' w1 = heightsFor m' h' w ++ [newBlockHeight a env1 h] /\
              m' = m /\ h' = h /\ heightsFor m h w = [])).
  { intros m' h'. destruct Hcases as [[Heq _] | [Heq Hnil]].
    - left. unfold heightsFor. now rewrite Heq.
    - unfold heightsFor at 1 3. rewrite Heq, filter_app. simpl.
      destruct (matchesQuery m' h' (newBlockHeight a env1 h)) eqn:E.
      + right. apply matchesQuery_iff in E as [Hm Hh]. simpl in Hm, Hh.
        repeat split; auto.
      + left. now rewrite app_nil_r. }
  split; [| split; [| split]].
  - intros Hex. destruct Hcases as [[Heq _] | [_ Hnil]]; [assumption | contradiction].
  - destruct Hcases as [[Heq _] | [Heq _]]; auto.
  - intros Hinv m' h'. destruct (Hcount m' h') as [-> | (-> & -> & -> & Hnil)].
    + apply Hinv.
    + rewrite Hnil. simpl. lia.
  - intros Hle Herr Hsave.
    assert (H1 : length (heightsFor m h w1) = 1%nat).
    { destruct Hcases as [[Heq Hex] | [Heq Hnil]].
      - specialize (Hex Herr Hsave). unfold heightsFor in *. rewrite Heq.
        destruct (filter _ (blockHeights w)) as [| x [| y l]]; simpl in *;
          [congruence | reflexivity | lia].
      - unfold heightsFor in *. rewrite Heq, filter_app, Hnil. simpl.
        fold m. now rewrite Hnew. }
    assert (Hex1 : heightsFor m h w1 <> []).
    { intros H. rewrite H in H1. discriminate H1. }
    subst w2. rewrite deliverHeight_run. cbv zeta.
    destruct (findOneErr env2); [exact H1 |].
    apply find_of_filter in Hex1 as [b Hb]. fold m. rewrite Hb. exact H1.
Qed.

(** One firing of the interval, case by case. *)
Lemma aliveIntervalTick_run (a : Auditor) (env : Env) (w : World) :
  aliveIntervalTick a env w =
  match findOneErr env with
  | Some e =>
      (Ok tt,
       withEffect SubscribeToBlockUpdates
         (withEffect ClearInterval (withEffect (LogDbReadError e) w)))
  | None =>
      match highest None
              (filter (fun b => (moduleName b =? module_moduleName a)%string)
                      (blockHeights w)) with
      | Some b =>
          if createdAt b <=? now env - staleAfter
          then (Ok tt,
                {| blockHeights := blockHeights w; node_ := node_ w;
                   effects := effects w ++ switchSequence (host (node_ w)) |})
          else (Ok tt, w)
      | None =>
          (Ok tt,
           {| blockHeights := blockHeights w; node_ := node_ w;
              effects := effects w ++ switchSequence (host (node_ w)) |})
      end
  end.
Proof.
  unfold aliveIntervalTick, findLatest, delayAuditorCallback, emit,
    bind, ret, gets, modify, withEffect, switchSequence.
  destruct (findOneErr env); simpl; [reflexivity |].
  destruct (highest None _) as [b |]; simpl.
  - destruct (createdAt b <=? now env - staleAfter); simpl; [| reflexivity].
    rewrite <- !app_assoc. reflexivity.
  - rewrite <- !app_assoc. reflexivity.
Qed.

(** When the loop ends with a node, that node is a configured one with
    another host than the one in use. *)
Lemma selectLoop_selected (fuel : nat) (random : nat -> Q) (n : nat)
    (nodes : list Node) (currentHost nextHost : string) (nextPort : Z) :
  selectLoop fuel random n nodes currentHost = Selected nextHost nextPort ->
  In {| host := nextHost; port := nextPort |} nodes /\ nextHost <> currentHost.
Proof.
  revert n. induction fuel as [| fuel IH]; intros n; simpl; [discriminate |].
  destruct (nodeAt nodes _) as [node |] eqn:Hat; [| discriminate].
  destruct (String.eqb_spec (host node) currentHost) as [Heq | Hneq].
  - apply IH.
  - intros [= <- <-]. split; [| assumption].
    unfold nodeAt in Hat. destruct (_ <? 0); [discriminate |].
    apply nth_error_In in Hat. now destruct node.
Qed.



(** At the threshold itself the comparison of the code is [<=]: a record
    created exactly 5 minutes before the check starts the switch. *)
Lemma staleness_at_threshold (a : Auditor) (env : Env) (w : World)
    (b : NEMBlockHeight) :
  findOneErr env = None ->
  highest None
    (filter (fun b => (moduleName b =? module_moduleName a)%string)
            (blockHeights w)) = Some b ->
  createdAt b = now env - staleAfter ->
  effects (snd (aliveIntervalTick a env w))
  = effects w ++ switchSequence (host (node_ w)).
Proof.
  intros Herr Hb Hat. rewrite aliveIntervalTick_run, Herr, Hb, Hat.
  now rewrite Z.leb_refl.
Qed.

Lemma randomIdxOf_range (r : Q) (cntNodes : Z) :
  (0 <= r)%Q -> (r < 1)%Q -> 2 <= cntNodes ->
  0 <= randomIdxOf r cntNodes < cntNodes - 1.
Proof.
  intros H0 H1 Hcnt. unfold randomIdxOf.
  assert (Hpos : (0 < inject_Z (cntNodes - 1))%Q).
  { unfold Qlt. simpl. lia. }
  split.
  - change 0 with (Qfloor 0). apply Qfloor_resp_le.
    apply Qmult_le_0_compat; [assumption | now apply Qlt_le_weak].
  - rewrite Zlt_Qlt.
    apply Qle_lt_trans with (y := (r * inject_Z (cntNodes - 1))%Q);
      [apply Qfloor_le |].
    rewrite <- (Qmult_1_l (inject_Z (cntNodes - 1))) at 2.
    now apply Qmult_lt_compat_r.
Qed.

(** The last configured node is never read by the loop. *)
Lemma nodeAt_random_not_last (r : Q) (front : list Node) (last : Node) :
  (0 <= r)%Q -> (r < 1)%Q -> front <> [] ->
  exists node,
    nodeAt (front ++ [last]) (randomIdxOf r (Z.of_nat (length (front ++ [last]))))
    = Some node /\ In node front.
Proof.
  intros H0 H1 Hne.
  assert (Hlen : Z.of_nat (length (front ++ [last])) - 1 = Z.of_nat (length front)).
  { rewrite length_app. simpl. lia. }
  assert (Hfront : (1 <= length front)%nat).
  { destruct front; [congruence | simpl; lia]. }
  destruct (randomIdxOf_range r (Z.of_nat (length (front ++ [last]))) H0 H1)
    as [Hlo Hhi]; [lia |].
  rewrite Hlen in Hhi. unfold nodeAt.
  destruct (Z.ltb_spec (randomIdxOf r (Z.of_nat (length (front ++ [last])))) 0);
    [lia |].
  rewrite nth_error_app1 by lia.
  destruct (nth_error front _) as [node |] eqn:E.
  - exists node. split; [reflexivity |]. eapply nth_error_In; eauto.
  - apply nth_error_None in E. lia.
Qed.

(** C7 fails on the code.  When every configured node but the last one
    has the host now in use, the selection loop never ends, whatever
    [Math.random] returns: the index drawn is below [cntNodes - 1], so the
    last node, the only one with another host, is never tried.  A list of
    two nodes whose first is the one in use is the smallest case. *)
Theorem selectLoop_never_ends (fuel : nat) (random : nat -> Q) (n : nat)
    (front : list Node) (last : Node) (currentHost : string) :
  (forall k, (0 <= random k)%Q /\ (random k < 1)%Q) ->
  front <> [] ->
  (forall node, In node front -> host node = currentHost) ->
  selectLoop fuel random n (front ++ [last]) currentHost = StillLooping.
Proof.
  intros Hrand Hne Hsame. revert n.
  induction fuel as [| fuel IH]; intros n; simpl; [reflexivity |].
  destruct (nodeAt_random_not_last (random n) front last
              (proj1 (Hrand n)) (proj2 (Hrand n)) Hne) as (node & Hat & Hin).
  rewrite Hat, (Hsame node Hin), String.eqb_refl. apply IH.
Qed.

End AuditorFacts.

(** *** Concrete runs of the auditor *)

(** C7 on two distinct hosts, alice in use: no number of iterations ends
    the loop, so [autoSwitchSocketNode] never installs bob. *)
Lemma selectLoop_never_ends_witness :
  host Fixture.nodeA <> host Fixture.nodeB /\
  (forall fuel,
      BlocksAuditor.selectLoop fuel Fixture.alwaysHalf 0
        [Fixture.nodeA; Fixture.nodeB] "alice" = BlocksAuditor.StillLooping) /\
  (forall fuel,
      BlocksAuditor.autoSwitchSocketNode Fixture.auditor fuel Fixture.alwaysHalf
        (Fixture.auditorWorld []) = None).
Proof.
  assert (Hloop : forall fuel,
             BlocksAuditor.selectLoop fuel Fixture.alwaysHalf 0
               [Fixture.nodeA; Fixture.nodeB] "alice" = BlocksAuditor.StillLooping).
  { intros fuel.
    apply (selectLoop_never_ends fuel Fixture.alwaysHalf 0 [Fixture.nodeA]
             Fixture.nodeB "alice").
    - intros k. split; [intros H; discriminate H | reflexivity].
    - intros H; discriminate H.
    - intros node [<- | []]. reflexivity. }
  split; [intros H; discriminate H |]. split; [exact Hloop |].
  intros fuel. unfold BlocksAuditor.autoSwitchSocketNode. simpl.
  rewrite (Hloop fuel). reflexivity.
Defined.



(** C9 on the end-to-end scenario: the push event for height 1000
    arrives twice, and once more by the pull. *)
Lemma one_record_per_height_witness :
  let env := Fixture.auditorEnv None 1000 in
  let w1 := snd (BlocksAuditor.deliverHeight BlocksAuditor.Push Fixture.auditor env
                   1000 (Fixture.auditorWorld [])) in
  let w2 := snd (BlocksAuditor.deliverHeight BlocksAuditor.Push Fixture.auditor env
                   1000 w1) in
  let w3 := snd (BlocksAuditor.deliverHeight BlocksAuditor.Pull Fixture.auditor env
                   1000 w2) in
  (length (BlocksAuditor.heightsFor "sign-socket" 1000 (Fixture.auditorWorld [])) <= 1)%nat /\
  length (BlocksAuditor.heightsFor "sign-socket" 1000 w2) = 1%nat /\
  BlocksAuditor.blockHeights w3 = BlocksAuditor.blockHeights w2.
Proof.
  cbv zeta. split; [simpl; lia |]. split.
  - apply (proj2 (proj2 (proj2
             (one_record_per_height Fixture.auditor BlocksAuditor.Push
                BlocksAuditor.Push (Fixture.auditorEnv None 1000)
                (Fixture.auditorEnv None 1000) 1000 (Fixture.auditorWorld []))))).
    + simpl. lia.
    + reflexivity.
    + reflexivity.
  - apply (proj1
             (one_record_per_height Fixture.auditor BlocksAuditor.Pull
                BlocksAuditor.Pull (Fixture.auditorEnv None 1000)
                (Fixture.auditorEnv None 1000) 1000 _)).
    intros H. discriminate H.
Defined.

(** C9 as stated fails in two ways.  Delivered twice in sequence, a
    height leaves no record at all when the save of the first delivery
    and the lookup of the second fail.  And when a push and a pull of the
    same height overlap, both lookups are answered before either
    callback runs: both find nothing, both save, and the height has two
    records. *)
Lemma height_store_counterexample :
  let empty := Fixture.auditorWorld [] in
  let w1 := snd (BlocksAuditor.deliverHeight BlocksAuditor.Push Fixture.auditor
                   (Fixture.saveDown 1000) 1000 empty) in
  let w2 := snd (BlocksAuditor.deliverHeight BlocksAuditor.Pull Fixture.auditor
                   (Fixture.auditorEnv (Some "read failed") 2000) 1000 w1) in
  let w3 := snd (BlocksAuditor.deliverOverlapping Fixture.auditor
                   (Fixture.auditorEnv None 1000) (Fixture.auditorEnv None 1001)
                   1000 empty) in
  BlocksAuditor.heightsFor "sign-socket" 1000 w2 = [] /\
  BlocksAuditor.heightsFor "sign-socket" 1000 w3
  = [Fixture.heightAt 1000 1000; Fixture.heightAt 1000 1001].
Proof.
  split; reflexivity.
Defined.

(** * Further properties *)

(** ** service.js: wallets, modes, amounts and senders *)

Section ServiceMore.
Context {sdk : NemSDK} {js : JSEngine}.

Lemma removeHyphens_clean (s : string) : hasHyphen (removeHyphens s) = false.
Proof.
  induction s as [| c s IH]; simpl; [reflexivity |].
  destruct (Ascii.eqb c hyphen) eqn:E; [exact IH |].
  simpl. now rewrite E.
Qed.

Lemma removeHyphens_fixed (s : string) :
  hasHyphen s = false -> removeHyphens s = s.
Proof.
  induction s as [| c s IH]; simpl; [reflexivity |].
  intros H. apply orb_false_iff in H as [Hc Hs]. rewrite Hc. now rewrite IH.
Qed.

(** X17.  A wallet address set by the constructor holds no hyphen, and an
    address configured with hyphens is the same wallet as the address
    configured without them. *)
Theorem botWallet_normalised (envValue : option string) (confValue : string) :
  hasHyphen (Service.botWallet envValue confValue) = false /\
  Service.botWallet None (removeHyphens confValue) = Service.botWallet None confValue /\
  Service.botWallet envValue confValue
  = Service.botWallet None (Service.orConf envValue confValue).
Proof.
  unfold Service.botWallet. split; [apply removeHyphens_clean |]. split.
  - simpl. apply removeHyphens_fixed, removeHyphens_clean.
  - reflexivity.
Qed.

(** X16.  [isMode] holds exactly for the configured mode and for every mode
    under "all": with one configured mode, when it is the mode asked or
    "all"; with an array, when the mode asked or "all" is in it. *)
Theorem isMode_iff (confMode : Service.BotMode) (mode : string) :
  Service.isMode confMode mode = true <->
  match confMode with
  | Service.ModeString m => m = mode \/ m = "all"%string
  | Service.ModeArray ms => In mode ms \/ In "all"%string ms
  end.
Proof.
  destruct confMode as [m | ms]; unfold Service.isMode.
  - rewrite orb_true_iff, !String.eqb_eq. reflexivity.
  - rewrite existsb_exists. split.
    + intros (x & Hin & H). apply orb_true_iff in H as [H | H];
        apply String.eqb_eq in H; subst; auto.
    + intros [H | H]; [exists mode | exists "all"%string];
        (split; [assumption |]); rewrite String.eqb_refl;
        [reflexivity | apply orb_true_r].
Qed.

(** [getTransactionAmount] throws only on a multisig wrapper that has no
    inner transaction. *)
Lemma getTransactionAmount_returns (p : TransactionMetaDataPair)
    (rc : Transaction) (mosaicSlug : string) (divisibility : float) :
  Service.realContent (transaction p) = Some rc ->
  exists a, Service.getTransactionAmount p mosaicSlug divisibility = Ok a.
Proof.
  intros Hrc. unfold Service.getTransactionAmount. rewrite Hrc.
  repeat match goal with
         | |- context [if ?c then _ else _] => destruct c
         | |- context [match ?c with Some _ => _ | None => _ end] => destruct c
         end; eexists; reflexivity.
Qed.

(** An amount read from a transaction whose raw amount and mosaic
    quantities are not below zero is not below zero, when the power the
    engine computes is above zero. *)
Lemma getTransactionAmount_not_negative (p : TransactionMetaDataPair)
    (rc : Transaction) (mosaicSlug : string) (divisibility : float)
    (a : option float) :
  Service.realContent (transaction p) = Some rc ->
  ltq (toNumber (amount rc)) 0 = false ->
  (forall ms m, mosaics rc = Some ms -> In m ms -> ltq (quantity m) 0 = false) ->
  gtq (Math_pow 10 divisibility) 0 = true ->
  Service.getTransactionAmount p mosaicSlug divisibility = Ok a ->
  ltq (toNumber a) 0 = false.
Proof.
  intros Hrc Hamt Hq Hpow. unfold Service.getTransactionAmount. rewrite Hrc.
  destruct (mosaics rc) as [[| m0 ms] |] eqn:Hms.
  - destruct (negb _); intros [= <-]; [reflexivity | assumption].
  - destruct (Service.lookupMosaic _ _ (m0 :: ms)) as [m |] eqn:Hl;
      intros [= <-]; [| reflexivity].
    apply lookupMosaic_Some in Hl as (before & after & Heq & _).
    simpl. apply mul_not_negative.
    + now apply div_not_negative.
    + apply (Hq (m0 :: ms) m eq_refl). rewrite Heq. apply in_elt.
  - destruct (negb _); intros [= <-]; [reflexivity | assumption].
Qed.

(** X10.  A candidate that [verifyTransaction] accepts has a sender, as
    [getTransactionSender] reads it, and that sender is, hyphens removed,
    the configured multisig address. *)
Theorem verified_sender_is_multisig (instance : MultisigCosignatory.Instance)
    (p : TransactionMetaDataPair) :
  MultisigCosignatory.verifyTransaction instance p = Ok true ->
  exists sender,
    Service.getTransactionSender (MultisigCosignatory.blockchain_ instance) p
    = Ok sender /\
    removeHyphens sender = multisigAddress (MultisigCosignatory.config instance).
Proof.
  intros H. apply verifyTransaction_true_iff in H as (real & Hreal & _ & Haddr).
  unfold Service.getTransactionSender, Service.getAddressFromPublicKey.
  unfold Service.realContent in Hreal.
  destruct (type (transaction p) =? multisigTransaction).
  - rewrite Hreal. eexists. split; [reflexivity | exact Haddr].
  - injection Hreal as <-. eexists. split; [reflexivity | exact Haddr].
Qed.

End ServiceMore.

(** The end-to-end candidate is sent by the multisig account. *)
Lemma verified_sender_is_multisig_witness :
  MultisigCosignatory.verifyTransaction (sdk := Fixture.sdk)
    (Fixture.instance Fixture.goodKey 100) (Fixture.candidateABC "INITIATOR1")
  = Ok true /\
  exists sender,
    Service.getTransactionSender (sdk := Fixture.sdk)
      (Fixture.service Fixture.goodKey 100) (Fixture.candidateABC "INITIATOR1")
    = Ok sender /\
    removeHyphens sender = "TBOTMSIG"%string.
Proof.
  split; [reflexivity |].
  exact (verified_sender_is_multisig (sdk := Fixture.sdk)
           (Fixture.instance Fixture.goodKey 100)
           (Fixture.candidateABC "INITIATOR1") eq_refl).
Defined.

(** ** multisig-cosignatory.js: what the handler keeps and never does *)

Section CosignatoryMore.
Context {sdk : NemSDK} {js : JSEngine} {db : Database}.
Import MultisigCosignatory.

(** Everything one run of the handler can do, with what it took to get
    there: nothing to store and requests; or one request, sent for a
    candidate with no record, a valid key, a verified pair and an amount
    within the limit; and with that request at most one record, stored on
    a SUCCESS reply when the socket is set. *)
Lemma handler_cases (instance : Instance) (env : Env)
    (p : TransactionMetaDataPair) (w : World) :
  let out := automaticTransactionSigningHandler instance env p w in
  let H := Service.getTransactionHash p true in
  let C := dailyAmount (config instance) in
  let dailyAmt := dailyAmtOf (aggregateResult (aggregateErr env) w) in
  (signedTransactions (snd out) = signedTransactions w /\
   announced (snd out) = announced w) \/
  (isPrivateKeyValid (Service.getBotSignSecret (blockchain_ instance)) = true /\
   verifyTransaction instance p = Ok true /\
   findOneErr env = None /\
   recordsFor H w = [] /\
   exists a,
     Service.getTransactionAmountXEM p = Ok a /\
     gtq C 0 && geq dailyAmt C = false /\
     gtq C 0 && gtq (dailyAmt + toNumber a)%float C = false /\
     announced (snd out) =
     announced w ++
     [(Service.node_ (blockchain_ instance),
       signatureBroadcastable
         (Service.getBotSignSecret (blockchain_ instance))
         (Service.getBotSignMultisigWallet (blockchain_ instance))
         H (Service.networkId (blockchain_ instance)))] /\
     (signedTransactions (snd out) = signedTransactions w \/
      exists sock res,
        nemsocket_ instance = Some sock /\
        announceReply env = Resolved res /\
        code res < 2 /\ message res = "SUCCESS"%string /\
        signedTransactions (snd out) =
        signedTransactions w ++ [newSignedTransaction instance env p a sock])).
Proof.
  cbv zeta. rewrite handler_run. unfold findOneResult.
  destruct (findOneErr env) as [err |] eqn:Herr; [left; split; reflexivity |].
  destruct (find _ (signedTransactions w)) as [t |] eqn:Hfind;
    [left; split; reflexivity |].
  apply find_none_filter in Hfind.
  rewrite aggregateCallback_run. cbv zeta.
  destruct (gtq _ 0 && geq _ _) eqn:Hl1; [left; split; reflexivity |].
  destruct (Service.getTransactionAmountXEM p) as [a | e] eqn:Ha;
    [| left; split; reflexivity].
  destruct (gtq _ 0 && gtq _ _) eqn:Hl2; [left; split; reflexivity |].
  rewrite signAndSave_run.
  destruct (isPrivateKeyValid _) eqn:Hkey; [| left; split; reflexivity].
  destruct (verifyTransaction instance p) as [[|] | e] eqn:Hver;
    try (left; split; reflexivity).
  right. repeat (split; [first [reflexivity | assumption] |]).
  exists a. repeat (split; [first [reflexivity | assumption] |]).
  rewrite announceThen_run.
  destruct (announceReply env) as [res | err];
    [| split; [reflexivity | left; reflexivity]].
  destruct (Z.leb_spec 2 (code res)); [split; [reflexivity | left; reflexivity] |].
  destruct (String.eqb_spec "SUCCESS" (message res)) as [Hs | Hs];
    [| split; [reflexivity | left; reflexivity]].
  destruct (nemsocket_ instance) as [sock |] eqn:Hsock;
    [| split; [reflexivity | left; reflexivity]].
  split; [reflexivity |]. right. exists sock, res. auto.
Qed.

(** X2.  The handler sends an announce request only for a candidate that has
    no record yet, that [verifyTransaction] accepts, and with a private
    key the SDK accepts; the request goes to the node of the service and
    carries the signature built for the candidate's hash. *)
Theorem announce_only_when_verified (instance : Instance) (env : Env)
    (p : TransactionMetaDataPair) (w : World) :
  let out := automaticTransactionSigningHandler instance env p w in
  announced (snd out) <> announced w ->
  isPrivateKeyValid (Service.getBotSignSecret (blockchain_ instance)) = true /\
  verifyTransaction instance p = Ok true /\
  findOneErr env = None /\
  recordsFor (Service.getTransactionHash p true) w = [] /\
  announced (snd out) =
  announced w ++
  [(Service.node_ (blockchain_ instance),
    signatureBroadcastable
      (Service.getBotSignSecret (blockchain_ instance))
      (Service.getBotSignMultisigWallet (blockchain_ instance))
      (Service.getTransactionHash p true)
      (Service.networkId (blockchain_ instance)))].
Proof.
  cbv zeta. intros Hchanged.
  destruct (handler_cases instance env p w)
    as [[_ Ha] | (Hkey & Hver & Herr & Hnone & a & _ & _ & _ & Hann & _)].
  - contradiction.
  - auto.
Qed.

(** X3.  The handler stores a record only after the announce of a verified
    candidate was answered with a reply that is no failure and says
    SUCCESS, and only with the socket set; the record goes to the end of
    the collection and carries the candidate's hash and the amount
    [getTransactionAmount] reads from it. *)
Theorem store_only_after_success (instance : Instance) (env : Env)
    (p : TransactionMetaDataPair) (w : World) :
  let out := automaticTransactionSigningHandler instance env p w in
  signedTransactions (snd out) <> signedTransactions w ->
  exists a sock res,
    Service.getTransactionAmountXEM p = Ok a /\
    verifyTransaction instance p = Ok true /\
    nemsocket_ instance = Some sock /\
    announceReply env = Resolved res /\ code res < 2 /\
    message res = "SUCCESS"%string /\
    length (announced (snd out)) = S (length (announced w)) /\
    signedTransactions (snd out) =
    signedTransactions w ++ [newSignedTransaction instance env p a sock] /\
    transactionHash (newSignedTransaction instance env p a sock)
    = Service.getTransactionHash p true /\
    amountXEM (newSignedTransaction instance env p a sock) = a.
Proof.
  cbv zeta. intros Hchanged.
  destruct (handler_cases instance env p w)
    as [[Hs _] | (_ & Hver & _ & _ & a & Ha & _ & _ & Hann & [Hs | Hs])];
    try contradiction.
  destruct Hs as (sock & res & Hsock & Hreply & Hcode & Hmsg & Hs).
  exists a, sock, res. rewrite Hann, length_app. simpl.
  repeat (split; [first [assumption | reflexivity | lia] |]). reflexivity.
Qed.

(** X4.  One run of the handler, taken from its call to the end of its
    last callback with no callback of another run in between, keeps the
    collection append-only and keeps at most one record per transaction
    hash. *)
Theorem handler_keeps_one_record_per_hash (instance : Instance) (env : Env)
    (p : TransactionMetaDataPair) (w : World) :
  let out := automaticTransactionSigningHandler instance env p w in
  (forall h, (length (recordsFor h w) <= 1)%nat) ->
  (forall h, (length (recordsFor h (snd out)) <= 1)%nat) /\
  exists added,
    signedTransactions (snd out) = signedTransactions w ++ added /\
    (length added <= 1)%nat.
Proof.
  cbv zeta. intros Hinv.
  destruct (handler_cases instance env p w)
    as [[Hs _] | (_ & _ & _ & Hnone & a & _ & _ & _ & _ & [Hs | Hs])].
  - split; [| exists []; rewrite app_nil_r; auto].
    intros h. unfold recordsFor. rewrite Hs. apply Hinv.
  - split; [| exists []; rewrite app_nil_r; auto].
    intros h. unfold recordsFor. rewrite Hs. apply Hinv.
  - destruct Hs as (sock & res & _ & _ & _ & _ & Hs).
    split; [| eexists; split; [exact Hs | simpl; lia]].
    intros h. unfold recordsFor in *. rewrite Hs, filter_app, length_app.
    change (filter (fun t => hashEqb (transactionHash t) h)
              [newSignedTransaction instance env p a sock])
      with (if hashEqb (Service.getTransactionHash p true) h
            then [newSignedTransaction instance env p a sock] else []).
    destruct (hashEqb (Service.getTransactionHash p true) h) eqn:E;
      [| simpl; specialize (Hinv h); lia].
    assert (Hh : h = Service.getTransactionHash p true).
    { destruct h as [x |], (Service.getTransactionHash p true) as [y |];
        simpl in E; try discriminate; [| reflexivity].
      apply String.eqb_eq in E. now subst. }
    subst h. rewrite Hnone. simpl. lia.
Qed.

(** X6.  When no stored amount is below zero and the candidate carries no
    raw amount or mosaic quantity below zero, no stored amount is below
    zero after the handler either, on an engine whose [Math.pow(10, 6)]
    is above zero. *)
Theorem handler_keeps_amounts_nonneg (instance : Instance) (env : Env)
    (p : TransactionMetaDataPair) (w : World) :
  let out := automaticTransactionSigningHandler instance env p w in
  gtq (Math_pow 10 6) 0 = true ->
  (forall t, In t (signedTransactions w) ->
             ltq (toNumber (amountXEM t)) 0 = false) ->
  (forall rc, Service.realContent (transaction p) = Some rc ->
     ltq (toNumber (amount rc)) 0 = false /\
     forall ms m, mosaics rc = Some ms -> In m ms -> ltq (quantity m) 0 = false) ->
  forall t, In t (signedTransactions (snd out)) ->
            ltq (toNumber (amountXEM t)) 0 = false.
Proof.
  cbv zeta. intros Hpow Hstore Hcand t.
  destruct (handler_cases instance env p w)
    as [[Hs _] | (_ & _ & _ & _ & a & Ha & _ & _ & _ & [Hs | Hs])];
    try (rewrite Hs; apply Hstore).
  destruct Hs as (sock & res & _ & _ & _ & _ & Hs).
  rewrite Hs, in_app_iff. intros [Hin | [<- | []]]; [now apply Hstore |].
  simpl. unfold Service.getTransactionAmountXEM in Ha.
  destruct (Service.realContent (transaction p)) as [rc |] eqn:Hrc.
  - destruct (Hcand rc eq_refl) as [Hamt Hq].
    exact (getTransactionAmount_not_negative p rc _ _ a Hrc Hamt Hq Hpow Ha).
  - unfold Service.getTransactionAmount in Ha. rewrite Hrc in Ha. discriminate Ha.
Qed.

(** X7.  When the aggregate read fails, the limit is checked on the candidate
    alone: under a ceiling above zero, a candidate whose amount is not
    above the ceiling goes on to signing whatever is stored. *)
Theorem aggregate_failure_limits_candidate_alone (instance : Instance)
    (env : Env) (p : TransactionMetaDataPair) (a : option float) (err : string)
    (w : World) :
  let C := dailyAmount (config instance) in
  aggregateErr env = Some err ->
  findOneResult (findOneErr env) (Service.getTransactionHash p true) w
  = (None, None) ->
  gtq C 0 = true ->
  Service.getTransactionAmountXEM p = Ok a ->
  gtq (toNumber a) C = false ->
  automaticTransactionSigningHandler instance env p w
  = signAndSave instance env p a w.
Proof.
  cbv zeta. intros Hagg Hfind HC Ha Hle.
  rewrite handler_run, Hfind, Hagg, aggregateCallback_run, Ha. cbv zeta. simpl.
  rewrite (gtq_zero_not_geq _ HC), gtq_zero_plus, Hle, !andb_false_r.
  reflexivity.
Qed.

(** X9.  [verifyTransaction] compares the account, hyphens removed, with the
    configured multisig address as it is written: when that address is
    written with a hyphen no candidate is ever verified, and the handler
    announces and stores nothing. *)
Theorem hyphenated_multisig_address_blocks_signing (instance : Instance) :
  hasHyphen (multisigAddress (config instance)) = true ->
  (forall p, verifyTransaction instance p <> Ok true) /\
  (forall env p w,
      let out := automaticTransactionSigningHandler instance env p w in
      signedTransactions (snd out) = signedTransactions w /\
      announced (snd out) = announced w).
Proof.
  intros Hhyphen.
  assert (Hnever : forall p, verifyTransaction instance p <> Ok true).
  { intros p H. apply verifyTransaction_true_iff in H as (real & _ & _ & Haddr).
    rewrite <- Haddr, removeHyphens_clean in Hhyphen. discriminate Hhyphen. }
  split; [exact Hnever |]. intros env p w. cbv zeta.
  destruct (handler_cases instance env p w) as [H | (_ & Hver & _)];
    [exact H | now apply Hnever in Hver].
Qed.

(** X11.  The loop of the fallback poll starts the signing handler for no
    element that has no [type] property of its own, whatever the type of
    its [transaction]: for a reply made of such elements only the two
    wallets are logged, no run of the handler is started and the signing
    world stays as it was. *)
Theorem fallback_poll_skips_pairs (instance : Instance)
    (unconfirmed : list UnconfirmedEntry) (pw : PollWorld) :
  (forall e, In e unconfirmed -> entry_type e = None) ->
  websocketFallbackHandler instance (UnconfirmedResolved unconfirmed) pw
  = (Ok [],
     {| signing := signing pw;
        pollLogged :=
          pollLogged pw ++
          [LogPollTry (length unconfirmed)
             (Service.getBotSignWallet (blockchain_ instance))
             (Service.getBotSignMultisigWallet (blockchain_ instance))] |}).
Proof.
  intros Hnone.
  assert (Hloop : forall i, signUnconfirmed i unconfirmed = []).
  { induction unconfirmed as [| e rest IH]; intros i; simpl; [reflexivity |].
    unfold entryIsNotMultisig. rewrite (Hnone e (or_introl eq_refl)).
    apply IH. intros x Hx. apply Hnone. now right. }
  unfold websocketFallbackHandler, logPoll, bind, modify, ret. simpl.
  rewrite Hloop. reflexivity.
Qed.

(** An element that carries the multisig type itself starts a run for
    its pair. *)
Lemma fallback_poll_starts_typed (instance : Instance) (i : nat)
    (e : UnconfirmedEntry) (rest : list UnconfirmedEntry) :
  entry_type e = Some multisigTransaction ->
  signUnconfirmed i (e :: rest) = (i, entry_pair e) :: signUnconfirmed (S i) rest.
Proof.
  intros H. simpl. unfold entryIsNotMultisig. rewrite H, Z.eqb_refl. reflexivity.
Qed.

(** The push listener ignores every transaction that is no multisig
    transaction and hands every multisig transaction to the signing
    handler as it is. *)
Lemma push_listener_filters_by_type (instance : Instance) (env : Env)
    (transactionData : TransactionMetaDataPair) (w : World) :
  unconfirmedListener instance env transactionData w =
  if type (transaction transactionData) =? multisigTransaction
  then automaticTransactionSigningHandler instance env transactionData w
  else (Ok tt, w).
Proof.
  unfold unconfirmedListener.
  destruct (type (transaction transactionData) =? multisigTransaction); reflexivity.
Qed.

(** The callbacks of a run, case by case. *)
Lemma resume_findOne (instance : Instance) (env : Env)
    (p : TransactionMetaDataPair) (w : World) :
  resume instance env p AwaitFindOne w =
  match findOneResult (findOneErr env) (Service.getTransactionHash p true) w with
  | (None, Some _) => (Ok Finished, w)
  | (Some err, _) => (Ok Finished, withLogged (LogDatabaseError err) w)
  | (None, None) => (Ok AwaitAggregate, w)
  end.
Proof.
  unfold resume, findOneCallback, findOne, bind, gets.
  destruct (findOneResult _ _ w) as [[err |] [t |]]; reflexivity.
Qed.

Lemma resume_aggregate (instance : Instance) (env : Env)
    (p : TransactionMetaDataPair) (w : World) :
  resume instance env p AwaitAggregate w =
  let dailyAmt := dailyAmtOf (aggregateResult (aggregateErr env) w) in
  let dailyMax := dailyAmount (config instance) in
  if gtq dailyMax 0 && geq dailyAmt dailyMax
  then (Ok Finished, withLogged (LogLimitReached dailyMax) w)
  else match Service.getTransactionAmountXEM p with
       | Throw e => (Ok Finished, w)
       | Ok trxAmount =>
           if gtq dailyMax 0 && gtq (dailyAmt + toNumber trxAmount)%float dailyMax
           then (Ok Finished,
                 withLogged
                   (LogLimitWouldBePassed (dailyAmt + toNumber trxAmount)%float) w)
           else
             match signTransaction instance p w with
             | (Ok _, w') => (Ok (AwaitAnnounce trxAmount), w')
             | (Throw e, w') => (Ok Finished, withLogged (LogSigningAborted e) w')
             end
       end.
Proof.
  unfold resume, limitCallback, aggregate. unfold bind at 1, gets at 1.
  cbv zeta.
  destruct (gtq _ 0 && geq _ _); [reflexivity |].
  unfold bind at 1, liftResult.
  destruct (Service.getTransactionAmountXEM p) as [a | e]; [| reflexivity].
  destruct (gtq _ 0 && gtq _ _); [reflexivity |].
  unfold bind at 1, tryCatch, bind at 1.
  destruct (signTransaction instance p w) as [[[] | e] w']; reflexivity.
Qed.

Lemma resume_announce (instance : Instance) (env : Env)
    (p : TransactionMetaDataPair) (trxAmount : option float) (w : World) :
  resume instance env p (AwaitAnnounce trxAmount) w =
  (Ok Finished,
   snd (announceThen p (saveCallback instance env p trxAmount)
          (announceReply env) w)).
Proof.
  unfold resume, replyCallback, bind.
  destruct (announceThen p _ (announceReply env) w) as [[[] | e] w']; reflexivity.
Qed.

Lemma resume_finished (instance : Instance) (env : Env)
    (p : TransactionMetaDataPair) (w : World) :
  resume instance env p Finished w = (Ok Finished, w).
Proof. reflexivity. Qed.

(** The three callbacks of a run, taken one after the other with
    nothing in between, leave the world as the handler does. *)
Lemma handler_is_uninterleaved_run (instance : Instance) (env : Env)
    (p : TransactionMetaDataPair) (w : World) :
  (k1 <- resume instance env p AwaitFindOne ;;
   k2 <- resume instance env p k1 ;;
   resume instance env p k2)%js w
  = (Ok Finished, snd (automaticTransactionSigningHandler instance env p w)).
Proof.
  rewrite handler_run. unfold bind. rewrite resume_findOne.
  destruct (findOneResult _ _ w) as [[err |] [t |]];
    rewrite ?resume_finished; try reflexivity.
  rewrite resume_aggregate, aggregateCallback_run. cbv zeta.
  destruct (gtq _ 0 && geq _ _); [now rewrite resume_finished |].
  destruct (Service.getTransactionAmountXEM p) as [a | e];
    [| now rewrite resume_finished].
  destruct (gtq _ 0 && gtq _ _); [now rewrite resume_finished |].
  rewrite signAndSave_run, signTransaction_run.
  destruct (isPrivateKeyValid _); [| now rewrite resume_finished].
  destruct (verifyTransaction instance p) as [[|] | e];
    try (now rewrite resume_finished).
  now rewrite resume_announce.
Qed.

(** Two runs whose callbacks are taken run after run are the two
    handlers in sequence. *)
Lemma inFlight_one_after_the_other (instance : Instance) (env1 env2 : Env)
    (p1 p2 : TransactionMetaDataPair) (w : World) :
  inFlight instance env1 env2 p1 p2 [true; true; true; false; false; false]
    AwaitFindOne AwaitFindOne w
  = (Ok (Finished, Finished),
     snd (automaticTransactionSigningHandler instance env2 p2
            (snd (automaticTransactionSigningHandler instance env1 p1 w)))).
Proof.
  pose proof (handler_is_uninterleaved_run instance env1 p1 w) as H1.
  pose proof (handler_is_uninterleaved_run instance env2 p2
                (snd (automaticTransactionSigningHandler instance env1 p1 w))) as H2.
  cbn [inFlight]. unfold bind in *.
  destruct (resume instance env1 p1 AwaitFindOne w) as [[k1 | e1] w1];
    [| discriminate H1].
  destruct (resume instance env1 p1 k1 w1) as [[k2 | e2] w2];
    [| discriminate H1].
  destruct (resume instance env1 p1 k2 w2) as [[k3 | e3] w3];
    [| discriminate H1].
  injection H1 as -> ->.
  destruct (resume instance env2 p2 AwaitFindOne _) as [[j1 | e1] v1];
    [| discriminate H2].
  destruct (resume instance env2 p2 j1 v1) as [[j2 | e2] v2];
    [| discriminate H2].
  destruct (resume instance env2 p2 j2 v2) as [[j3 | e3] v3];
    [| discriminate H2].
  injection H2 as -> ->. reflexivity.
Qed.

(** A hash without a record is handled from the limit check on, whatever
    was announced for it before: after a rejection, a failure or a
    neutral reply the next invocation runs the pipeline again. *)
Lemma handler_runs_again_without_record (instance : Instance) (env : Env)
    (p : TransactionMetaDataPair) (w : World) :
  recordsFor (Service.getTransactionHash p true) w = [] ->
  findOneErr env = None ->
  automaticTransactionSigningHandler instance env p w
  = aggregateCallback instance env p (aggregateResult (aggregateErr env) w) w.
Proof.
  unfold recordsFor. intros Hnone Herr.
  rewrite handler_run. unfold findOneResult. rewrite Herr.
  destruct (find _ (signedTransactions w)) as [t |] eqn:Hfind; [| reflexivity].
  apply find_some in Hfind as [Hin Ht].
  assert (Hf : In t (filter
                       (fun t => hashEqb (transactionHash t)
                                   (Service.getTransactionHash p true))
                       (signedTransactions w)))
    by (apply filter_In; auto).
  rewrite Hnone in Hf. contradiction.
Qed.

(** A candidate of an unlisted initiator is signed under no order of the
    callbacks: none of its callbacks announces or stores, and its run
    never comes to wait for an announce reply. *)
Lemma resume_unlisted (instance : Instance) (env : Env)
    (p : TransactionMetaDataPair) (k : Pending) (w : World) :
  ~ inAllowList (acceptFrom (config instance)) (signer (transaction p)) ->
  (forall a, k <> AwaitAnnounce a) ->
  exists k' w',
    resume instance env p k w = (Ok k', w') /\
    (forall a, k' <> AwaitAnnounce a) /\
    signedTransactions w' = signedTransactions w /\
    announced w' = announced w.
Proof.
  intros Hnot Hk. apply not_accepted in Hnot.
  assert (Hv : verifyTransaction instance p = Ok false \/
               exists e, verifyTransaction instance p = Throw e).
  { unfold verifyTransaction.
    destruct (if type (transaction p) =? multisigTransaction
              then otherTrans (transaction p) else Some (transaction p));
      [left | right; eexists; reflexivity].
    rewrite Hnot. reflexivity. }
  destruct k as [| | a |].
  - rewrite resume_findOne.
    destruct (findOneResult _ _ w) as [[err |] [t |]];
      do 2 eexists; (split; [reflexivity |]); repeat split; discriminate.
  - rewrite resume_aggregate. cbv zeta.
    destruct (gtq _ 0 && geq _ _);
      [do 2 eexists; (split; [reflexivity |]); repeat split; discriminate |].
    destruct (Service.getTransactionAmountXEM p) as [a | e];
      [| do 2 eexists; (split; [reflexivity |]); repeat split; discriminate].
    destruct (gtq _ 0 && gtq _ _);
      [do 2 eexists; (split; [reflexivity |]); repeat split; discriminate |].
    rewrite signTransaction_run.
    destruct (isPrivateKeyValid _);
      [| do 2 eexists; (split; [reflexivity |]); repeat split; discriminate].
    destruct Hv as [-> | [e ->]];
      do 2 eexists; (split; [reflexivity |]); repeat split; discriminate.
  - now contradiction (Hk a).
  - do 2 eexists. split; [reflexivity |]. repeat split; discriminate.
Qed.

Lemma inFlight_unlisted (instance : Instance) (env1 env2 : Env)
    (p1 p2 : TransactionMetaDataPair) (schedule : list bool)
    (k1 k2 : Pending) (w : World) :
  ~ inAllowList (acceptFrom (config instance)) (signer (transaction p1)) ->
  ~ inAllowList (acceptFrom (config instance)) (signer (transaction p2)) ->
  (forall a, k1 <> AwaitAnnounce a) -> (forall a, k2 <> AwaitAnnounce a) ->
  let out := inFlight instance env1 env2 p1 p2 schedule k1 k2 w in
  signedTransactions (snd out) = signedTransactions w /\
  announced (snd out) = announced w.
Proof.
  intros H1 H2. revert k1 k2 w.
  induction schedule as [| first rest IH]; intros k1 k2 w Hk1 Hk2; cbv zeta.
  - split; reflexivity.
  - destruct first; cbn [inFlight]; unfold bind.
    + destruct (resume_unlisted instance env1 p1 k1 w H1 Hk1)
        as (k' & w' & -> & Hk' & Hs & Ha).
      destruct (IH k' k2 w' Hk' Hk2) as [Hs' Ha']. split; congruence.
    + destruct (resume_unlisted instance env2 p2 k2 w H2 Hk2)
        as (k' & w' & -> & Hk' & Hs & Ha).
      destruct (IH k1 k' w' Hk1 Hk') as [Hs' Ha']. split; congruence.
Qed.

End CosignatoryMore.

(** ** blocks-auditor.js: switching, the latest height, and staleness *)

Section AuditorMore.
Import BlocksAuditor.

(** X18.  When [autoSwitchSocketNode] returns, the node it installed is one of
    the configured nodes, its host is not the host used before, the
    stored heights are untouched, and what happened is: disconnect, the
    log line, connect. *)
Theorem autoSwitch_installs_other_node (a : Auditor) (fuel : nat)
    (random : nat -> Q) (w w' : World) :
  autoSwitchSocketNode a fuel random w = Some (Ok tt, w') ->
  In (node_ w') (nodesList a) /\
  host (node_ w') <> host (node_ w) /\
  blockHeights w' = blockHeights w /\
  effects w' =
  effects w ++
  [Disconnect; LogSwitching (host (node_ w')) (port (node_ w')); Connect].
Proof.
  unfold autoSwitchSocketNode. simpl.
  destruct (selectLoop fuel random 0 (nodesList a) (host (node_ w)))
    as [nextHost nextPort | e |] eqn:Hloop; try discriminate.
  intros [= <-]. simpl. apply selectLoop_selected in Hloop as [Hin Hne].
  repeat split; try assumption. now rewrite <- app_assoc.
Qed.

(** X19.  The loop ends at the first draw that reads a node with another host:
    if the first [k] draws read nodes with the host in use and the next
    one reads [node] with another host, then any fuel above [k] returns
    [node]. *)
Theorem selectLoop_ends_at_first_other (k : nat) (random : nat -> Q)
    (nodes : list Node) (currentHost : string) (node : Node)
    (n fuel : nat) :
  (forall j, (j < k)%nat ->
     exists nd,
       nodeAt nodes (randomIdxOf (random (n + j)%nat) (Z.of_nat (length nodes)))
       = Some nd /\ host nd = currentHost) ->
  nodeAt nodes (randomIdxOf (random (n + k)%nat) (Z.of_nat (length nodes)))
  = Some node ->
  host node <> currentHost ->
  (k < fuel)%nat ->
  selectLoop fuel random n nodes currentHost = Selected (host node) (port node).
Proof.
  revert n fuel. induction k as [| k IH]; intros n fuel Hsame Hat Hne Hfuel.
  - destruct fuel as [| fuel]; [lia |]. simpl.
    rewrite Nat.add_0_r in Hat. rewrite Hat.
    destruct (String.eqb_spec (host node) currentHost); [contradiction | reflexivity].
  - destruct fuel as [| fuel]; [lia |]. simpl.
    destruct (Hsame O) as (nd & Hnd & Hhost); [lia |].
    rewrite Nat.add_0_r in Hnd. rewrite Hnd, Hhost, String.eqb_refl.
    apply IH; [| | assumption | lia].
    + intros j Hj. destruct (Hsame (S j)) as (x & Hx & Hxh); [lia |].
      exists x. split; [| assumption].
      now replace (S n + j)%nat with (n + S j)%nat by lia.
    + now replace (S n + k)%nat with (n + S k)%nat by lia.
Qed.

Lemma randomIdxOf_single (r : Q) : randomIdxOf r 1 = 0.
Proof.
  unfold randomIdxOf, Qfloor, Qmult. simpl.
  rewrite Z.mul_0_r. apply Z.div_0_l. discriminate.
Qed.

(** X20.  The loop on short lists.  With no node configured the first
    iteration throws (there is no node to read the host of).  With one
    node it reads that node on every draw: it returns it at once when its
    host is not the one in use, and never ends when it is. *)
Theorem selectLoop_short_lists :
  (forall fuel random n currentHost,
      selectLoop (S fuel) random n [] currentHost
      = Crashed (TypeError "nodesList[randomIdx].host")) /\
  (forall fuel random n node currentHost,
      host node <> currentHost ->
      selectLoop (S fuel) random n [node] currentHost
      = Selected (host node) (port node)) /\
  (forall fuel random n node,
      selectLoop fuel random n [node] (host node) = StillLooping).
Proof.
  split; [| split].
  - intros fuel random n currentHost. simpl. unfold nodeAt.
    destruct (_ <? 0); [reflexivity |]. now destruct (Z.to_nat _).
  - intros fuel random n node currentHost Hne. simpl.
    change (Z.pos (Pos.of_succ_nat 0)) with 1. rewrite randomIdxOf_single. simpl.
    destruct (String.eqb_spec (host node) currentHost); [contradiction | reflexivity].
  - intros fuel random n node. revert n.
    induction fuel as [| fuel IH]; intros n; simpl; [reflexivity |].
    change (Z.pos (Pos.of_succ_nat 0)) with 1. rewrite randomIdxOf_single. simpl.
    rewrite String.eqb_refl. apply IH.
Qed.





(** X24.  A height that is already stored does not refresh anything: after its
    delivery the staleness check adds to the effects exactly what it
    would have added without the delivery. *)
Theorem repeated_height_does_not_refresh (a : Auditor) (d : Delivery)
    (env1 env2 : Env) (h : Z) (w : World) :
  let w1 := snd (deliverHeight d a env1 h w) in
  heightsFor (module_moduleName a) h w <> [] ->
  blockHeights w1 = blockHeights w /\
  exists added,
    effects (snd (aliveIntervalTick a env2 w1)) = effects w1 ++ added /\
    effects (snd (aliveIntervalTick a env2 w)) = effects w ++ added.
Proof.
  cbv zeta. intros Hstored. apply find_of_filter in Hstored as [b Hb].
  assert (Hw1 : blockHeights (snd (deliverHeight d a env1 h w)) = blockHeights w /\
                node_ (snd (deliverHeight d a env1 h w)) = node_ w).
  { rewrite deliverHeight_run. cbv zeta. rewrite Hb.
    destruct (findOneErr env1); split; reflexivity. }
  destruct Hw1 as [Hs Hn]. split; [exact Hs |].
  rewrite !aliveIntervalTick_run, Hs, Hn.
  destruct (findOneErr env2) as [e |].
  - eexists. simpl. rewrite <- !app_assoc. split; reflexivity.
  - destruct (highest None _) as [c |].
    + destruct (createdAt c <=? now env2 - staleAfter).
      * eexists. split; reflexivity.
      * exists []. rewrite !app_nil_r. split; reflexivity.
    + eexists. split; reflexivity.
Qed.

(** X25.  A delivery never throws, never changes the node in use, and leaves
    the documents of every other module and of every other height as
    they are. *)
Theorem deliverHeight_frame (d : Delivery) (a : Auditor) (env : Env) (h : Z)
    (w : World) :
  let out := deliverHeight d a env h w in
  fst out = Ok tt /\
  node_ (snd out) = node_ w /\
  forall m' h', (m', h') <> (module_moduleName a, h) ->
                heightsFor m' h' (snd out) = heightsFor m' h' w.
Proof.
  cbv zeta. rewrite deliverHeight_run. cbv zeta.
  destruct (findOneErr env); [repeat split |].
  destruct (find _ (blockHeights w)); [repeat split |].
  destruct (saveErr env); [repeat split |].
  split; [reflexivity |]. split; [reflexivity |]. intros m' h' Hne.
  unfold heightsFor. simpl. rewrite filter_app. simpl.
  destruct (matchesQuery m' h' (newBlockHeight a env h)) eqn:E;
    [| apply app_nil_r].
  apply matchesQuery_iff in E as [Hm Hh]. simpl in Hm, Hh. subst.
  now contradiction Hne.
Qed.

End AuditorMore.

(** ** The socket of the cosignatory *)

Section ConnectionFacts.
Context {sdk : NemSDK}.
Import Connection.

Lemma prefix_iff (pattern s : string) :
  prefix pattern s = true <-> exists post, s = (pattern ++ post)%string.
Proof.
  revert s. induction pattern as [| a pattern IH]; intros s.
  - destruct s; simpl; (split; [intros _; eexists; reflexivity | reflexivity]).
  - destruct s as [| b s]; simpl.
    + split; [discriminate | intros [post H]; discriminate H].
    + destruct (ascii_dec a b) as [-> | Hne].
      * rewrite IH. split; intros [post H]; exists post; [now rewrite H | now injection H].
      * split; [discriminate | intros [post H]; congruence].
Qed.

(** [includes pattern s] holds exactly when [pattern] occurs in [s]. *)
Lemma includes_iff (pattern s : string) :
  includes pattern s = true <->
  exists pre post, s = (pre ++ pattern ++ post)%string.
Proof.
  induction s as [| c s IH]; cbn [includes].
  - rewrite orb_false_r, prefix_iff. split.
    + intros [post H]. now exists EmptyString, post.
    + intros (pre & post & H). destruct pre as [| x pre]; [| discriminate H].
      now exists post.
  - rewrite orb_true_iff, prefix_iff, IH. split.
    + intros [[post H] | (pre & post & H)].
      * now exists EmptyString, post.
      * exists (String c pre), post. simpl. now rewrite H.
    + intros (pre & post & H). destruct pre as [| x pre].
      * left. now exists post.
      * right. simpl in H. injection H as _ H. now exists pre, post.
Qed.

Lemma In_assignKey (x key : string) (keys : list string) :
  In x (assignKey key keys) <-> x = key \/ In x keys.
Proof.
  unfold assignKey. destruct (existsb (String.eqb key) keys) eqn:E.
  - split; [auto |]. intros [-> | H]; [| assumption].
    apply existsb_exists in E as (y & Hy & Heq). apply String.eqb_eq in Heq.
    now subst.
  - rewrite in_app_iff. simpl. split; [intros [H | [H | []]]; auto | intros [H | H]; auto].
Qed.

Lemma connectBlockchainSocket_run (instance : MultisigCosignatory.Instance)
    (w : World) :
  connectBlockchainSocket instance w =
  (Ok tt,
   {| nemsocket_ :=
        Some (Service.node_ (MultisigCosignatory.blockchain_ instance));
      nemSubscriptions_ := nemSubscriptions_ w;
      auditor_ := auditor_ w;
      effects :=
        effects w ++
        [NewSocket (Service.node_ (MultisigCosignatory.blockchain_ instance));
         ConnectWS] |}).
Proof.
  unfold connectBlockchainSocket, emit, bind, modify. simpl.
  now rewrite <- app_assoc.
Qed.

(** X14.  The error handler of the socket asks for a new connection to the
    same node exactly when the text "Lost connection to" occurs in the
    error; any other error is logged and nothing else happens.  The
    subscriptions are left as they are in both cases. *)
Theorem error_handler_reconnects_iff (instance : MultisigCosignatory.Instance)
    (error : string) (w : World) :
  let out := websocketErrorHandler instance error w in
  let node := Service.node_ (MultisigCosignatory.blockchain_ instance) in
  let lost :=
    exists pre post, error = (pre ++ "Lost connection to" ++ post)%string in
  nemSubscriptions_ (snd out) = nemSubscriptions_ w /\
  (lost ->
   fst out = Ok true /\ nemsocket_ (snd out) = Some node /\
   effects (snd out) = effects w ++ [LogDrop; NewSocket node; ConnectWS]) /\
  (~ lost ->
   fst out = Ok false /\ nemsocket_ (snd out) = nemsocket_ w /\
   effects (snd out) = effects w ++ [LogUncaught error]).
Proof.
  cbv zeta. unfold websocketErrorHandler.
  destruct (includes "Lost connection to" error) eqn:E.
  - apply includes_iff in E.
    unfold bind at 1. unfold emit at 1, modify at 1. unfold bind at 1.
    rewrite connectBlockchainSocket_run. simpl.
    split; [reflexivity |]. split; [| intros H; contradiction].
    intros _. repeat split. rewrite <- !app_assoc. reflexivity.
  - assert (Hnot : ~ exists pre post,
                       error = (pre ++ "Lost connection to" ++ post)%string).
    { intros H. apply includes_iff in H. congruence. }
    unfold emit, bind, modify, ret. simpl.
    split; [reflexivity |]. split; [intros H; contradiction | intros _; repeat split].
Qed.

(** The connect callback, by what the audited object offers. *)
Lemma onConnectOf_run (self : AuditModule)
    (instance : MultisigCosignatory.Instance) (w : World) :
  onConnectOf self instance w =
  let node := Service.node_ (MultisigCosignatory.blockchain_ instance) in
  let opened := [LogConnected; LogSubscribing "/errors"; SubscribeWS "/errors"] in
  if has_connectBlockchainSocket self && has_disconnectBlockchainSocket self then
    (Ok tt,
     {| nemsocket_ := nemsocket_ w;
        nemSubscriptions_ :=
          assignKey (unconfirmedUri instance)
            (assignKey "/errors" (nemSubscriptions_ w));
        auditor_ := true;
        effects :=
          effects w ++ opened ++
          [LogSubscribing "/blocks/new"; SubscribeWS "/blocks/new";
           SetInterval (10 * 60 * 1000); HeightPull;
           LogSubscribing (unconfirmedUri instance);
           SubscribeWS (unconfirmedUri instance);
           SendWS sendUri
             (Service.getBotSignWallet (MultisigCosignatory.blockchain_ instance))] |})
  else
    (Ok tt,
     {| nemsocket_ := Some node;
        nemSubscriptions_ := assignKey "/errors" (nemSubscriptions_ w);
        auditor_ := auditor_ w;
        effects :=
          effects w ++ opened ++
          [LogSubscriptionError
             (if has_connectBlockchainSocket self then missingDisconnect
              else missingConnect);
           NewSocket node; ConnectWS] |}).
Proof.
  unfold onConnectOf, tryCatch, newBlocksAuditor, subscribeToBlockUpdates,
    registerBlockDelayAuditor, subscribe, connectBlockchainSocket,
    emit, bind, modify, throw. cbv zeta.
  destruct (has_connectBlockchainSocket self),
    (has_disconnectBlockchainSocket self); simpl;
    rewrite <- ?app_assoc; reflexivity.
Qed.

(** X13.  The auditor is started, and the feed of unconfirmed transactions
    subscribed, only for an object that offers both
    [connectBlockchainSocket] and [disconnectBlockchainSocket]; for any
    other object the connect callback subscribes to /errors alone, logs
    the constructor's error and asks for a new connection. *)
Theorem unconfirmed_feed_needs_both_methods (self : AuditModule)
    (instance : MultisigCosignatory.Instance) (w : World) :
  let out := onConnectOf self instance w in
  let both :=
    has_connectBlockchainSocket self && has_disconnectBlockchainSocket self in
  fst out = Ok tt /\
  In "/errors"%string (nemSubscriptions_ (snd out)) /\
  (both = true ->
   In (unconfirmedUri instance) (nemSubscriptions_ (snd out)) /\
   auditor_ (snd out) = true /\
   countConnects (effects (snd out)) = countConnects (effects w)) /\
  (both = false ->
   (In (unconfirmedUri instance) (nemSubscriptions_ (snd out)) ->
    In (unconfirmedUri instance) (nemSubscriptions_ w)) /\
   auditor_ (snd out) = auditor_ w /\
   countConnects (effects (snd out)) = S (countConnects (effects w))).
Proof.
  cbv zeta. rewrite onConnectOf_run. cbv zeta.
  assert (Hcount : forall l l' : list Effect,
             countConnects (l ++ l') = (countConnects l + countConnects l')%nat).
  { intros l l'. unfold countConnects. now rewrite filter_app, length_app. }
  destruct (has_connectBlockchainSocket self && has_disconnectBlockchainSocket self);
    simpl.
  - split; [reflexivity |]. split.
    { apply In_assignKey. right. apply In_assignKey. now left. }
    split; [| discriminate]. intros _. split; [apply In_assignKey; now left |].
    split; [reflexivity |]. rewrite Hcount. unfold countConnects. simpl. lia.
  - split; [reflexivity |]. split; [apply In_assignKey; now left |].
    split; [discriminate |]. intros _. split.
    + intros H. apply In_assignKey in H as [H | H]; [discriminate H | exact H].
    + split; [reflexivity |]. rewrite Hcount.
      unfold countConnects. destruct (has_connectBlockchainSocket self); simpl; lia.
Qed.

Lemma countConnects_app (l l' : list Effect) :
  countConnects (l ++ l') = (countConnects l + countConnects l')%nat.
Proof. unfold countConnects. now rewrite filter_app, length_app. Qed.

(** X12.  The cosignatory hands itself to the auditor and has no
    [disconnectBlockchainSocket]: whatever the socket reports, in any
    order, the feed of unconfirmed transactions is never subscribed and
    the auditor never set, and every established connection, like every
    lost one, is answered with one more request to connect. *)
Theorem cosignatory_never_subscribes_unconfirmed
    (instance : MultisigCosignatory.Instance) (events : list SocketEvent)
    (w : World) :
  let out := session cosignatoryModule instance events w in
  ~ In (unconfirmedUri instance) (nemSubscriptions_ w) ->
  fst out = Ok tt /\
  ~ In (unconfirmedUri instance) (nemSubscriptions_ (snd out)) /\
  auditor_ (snd out) = auditor_ w /\
  countConnects (effects (snd out))
  = (countConnects (effects w) + length (filter callsForReconnect events))%nat.
Proof.
  cbv zeta. revert w. induction events as [| ev events IH]; intros w Hnot.
  - simpl. repeat split; [assumption | lia].
  - change (session cosignatoryModule instance (ev :: events) w)
      with (match onEvent cosignatoryModule instance ev w with
            | (Ok _, w1) => session cosignatoryModule instance events w1
            | (Throw e, w1) => (Throw e, w1)
            end).
    assert (Hstep : exists w1,
               onEvent cosignatoryModule instance ev w = (Ok tt, w1) /\
               ~ In (unconfirmedUri instance) (nemSubscriptions_ w1) /\
               auditor_ w1 = auditor_ w /\
               countConnects (effects w1)
               = (countConnects (effects w)
                  + if callsForReconnect ev then 1 else 0)%nat).
    { destruct ev as [| error]; simpl.
      - rewrite onConnectOf_run. cbv zeta. simpl. eexists. split; [reflexivity |].
        simpl. split; [| split; [reflexivity |]].
        + intros H. apply In_assignKey in H as [H | H]; [discriminate H | auto].
        + rewrite countConnects_app. unfold countConnects. simpl. lia.
      - unfold websocketErrorHandler.
        destruct (includes "Lost connection to" error).
        + unfold bind at 1. unfold bind at 1. unfold emit at 1, modify at 1.
          unfold bind at 1. rewrite connectBlockchainSocket_run. simpl.
          eexists. split; [reflexivity |]. simpl.
          split; [assumption |]. split; [reflexivity |].
          rewrite <- ?app_assoc, countConnects_app. unfold countConnects. simpl. lia.
        + unfold emit, bind, modify, ret. simpl.
          eexists. split; [reflexivity |]. simpl.
          split; [assumption |]. split; [reflexivity |].
          rewrite countConnects_app. unfold countConnects. simpl. lia. }
    destruct Hstep as (w1 & -> & Hnot1 & Haud & Hcnt).
    destruct (IH w1 Hnot1) as (Hok & Hn & Ha & Hc).
    split; [exact Hok |]. split; [exact Hn |]. split; [congruence |].
    rewrite Hc, Hcnt. cbn [filter]. destruct (callsForReconnect ev); simpl; lia.
Qed.

End ConnectionFacts.

(** *** Concrete runs for the further properties *)

(** The end-to-end candidate is announced: its key is valid and it is
    verified. *)
Lemma announce_only_when_verified_witness :
  let i := Fixture.instance Fixture.goodKey 100 in
  let p := Fixture.candidateABC "INITIATOR1" in
  let out := MultisigCosignatory.automaticTransactionSigningHandler
               (sdk := Fixture.sdk) (js := Fixture.js) (db := Fixture.db)
               i (Fixture.env Fixture.neutral 1000) p
               Fixture.emptyWorld in
  length (MultisigCosignatory.announced (snd out)) = 1%nat /\
  isPrivateKeyValid (NemSDK := Fixture.sdk)
    (Service.getBotSignSecret (MultisigCosignatory.blockchain_ i)) = true /\
  MultisigCosignatory.verifyTransaction (sdk := Fixture.sdk) i p = Ok true.
Proof.
  cbv zeta. split; [reflexivity |].
  destruct (announce_only_when_verified
              (sdk := Fixture.sdk) (js := Fixture.js) (db := Fixture.db)
              (Fixture.instance Fixture.goodKey 100)
              (Fixture.env Fixture.neutral 1000)
              (Fixture.candidateABC "INITIATOR1") Fixture.emptyWorld)
    as (Hkey & Hver & _).
  - vm_compute. intros H. discriminate H.
  - split; [exact Hkey | exact Hver].
Defined.

(** The end-to-end candidate is stored after a SUCCESS reply, with
    amount 10 under hash "ABC". *)
Lemma store_only_after_success_witness :
  let i := Fixture.instance Fixture.goodKey 100 in
  let p := Fixture.candidateABC "INITIATOR1" in
  let out := MultisigCosignatory.automaticTransactionSigningHandler
               (sdk := Fixture.sdk) (js := Fixture.js) (db := Fixture.db)
               i (Fixture.env Fixture.success 1000) p
               Fixture.emptyWorld in
  length (MultisigCosignatory.signedTransactions (snd out)) = 1%nat /\
  exists a sock res,
    Service.getTransactionAmountXEM (sdk := Fixture.sdk) (js := Fixture.js) p = Ok a /\
    MultisigCosignatory.announceReply (Fixture.env Fixture.success 1000)
    = MultisigCosignatory.Resolved res /\
    MultisigCosignatory.signedTransactions (snd out)
    = [] ++ [MultisigCosignatory.newSignedTransaction i
               (Fixture.env Fixture.success 1000) p a sock].
Proof.
  cbv zeta. split; [reflexivity |].
  destruct (store_only_after_success
              (sdk := Fixture.sdk) (js := Fixture.js) (db := Fixture.db)
              (Fixture.instance Fixture.goodKey 100)
              (Fixture.env Fixture.success 1000)
              (Fixture.candidateABC "INITIATOR1") Fixture.emptyWorld)
    as (a & sock & res & Ha & _ & _ & Hreply & _ & _ & _ & Hs & _).
  - vm_compute. intros H. discriminate H.
  - exists a, sock, res. split; [exact Ha |]. split; [exact Hreply | exact Hs].
Defined.

(** One record stored, one candidate signed: still one record per hash. *)
Lemma handler_keeps_one_record_per_hash_witness :
  let i := Fixture.instance Fixture.goodKey 1000 in
  let w := Fixture.worldWith [Fixture.signedRecord "OLD" 100] in
  let out := MultisigCosignatory.automaticTransactionSigningHandler
               (sdk := Fixture.sdk) (js := Fixture.js) (db := Fixture.db)
               i (Fixture.env Fixture.success 1000)
               (Fixture.candidateABC "INITIATOR1") w in
  length (MultisigCosignatory.signedTransactions (snd out)) = 2%nat /\
  forall h, (length (MultisigCosignatory.recordsFor h (snd out)) <= 1)%nat.
Proof.
  cbv zeta. split; [reflexivity |].
  apply (handler_keeps_one_record_per_hash
           (sdk := Fixture.sdk) (js := Fixture.js) (db := Fixture.db)
           (Fixture.instance Fixture.goodKey 1000)
           (Fixture.env Fixture.success 1000)
           (Fixture.candidateABC "INITIATOR1")
           (Fixture.worldWith [Fixture.signedRecord "OLD" 100])).
  intros h. unfold MultisigCosignatory.recordsFor, Fixture.worldWith.
  cbn [MultisigCosignatory.signedTransactions filter].
  destruct (MultisigCosignatory.hashEqb _ h); simpl; lia.
Defined.

(** The amounts stored after the end-to-end candidate are not below
    zero. *)
Lemma handler_keeps_amounts_nonneg_witness :
  let i := Fixture.instance Fixture.goodKey 1000 in
  let w := Fixture.worldWith [Fixture.signedRecord "OLD" 100] in
  let out := MultisigCosignatory.automaticTransactionSigningHandler
               (sdk := Fixture.sdk) (js := Fixture.js) (db := Fixture.db)
               i (Fixture.env Fixture.success 1000)
               (Fixture.candidateABC "INITIATOR1") w in
  gtq (Math_pow (JSEngine := Fixture.js) 10 6) 0 = true /\
  length (MultisigCosignatory.signedTransactions (snd out)) = 2%nat /\
  forall t, In t (MultisigCosignatory.signedTransactions (snd out)) ->
            ltq (toNumber (MultisigCosignatory.amountXEM t)) 0 = false.
Proof.
  cbv zeta. split; [reflexivity |]. split; [reflexivity |].
  apply (handler_keeps_amounts_nonneg
           (sdk := Fixture.sdk) (js := Fixture.js) (db := Fixture.db)
           (Fixture.instance Fixture.goodKey 1000)
           (Fixture.env Fixture.success 1000)
           (Fixture.candidateABC "INITIATOR1")
           (Fixture.worldWith [Fixture.signedRecord "OLD" 100])).
  - reflexivity.
  - intros t [<- | []]. reflexivity.
  - intros rc [= <-]. split; [reflexivity |].
    intros ms m H. discriminate H.
Defined.

(** 100 stored under a ceiling of 100 and a failing aggregate: a
    candidate of 10 is signed and stored, and 110 is stored in all. *)
Lemma aggregate_failure_limits_candidate_alone_witness :
  let i := Fixture.instance Fixture.goodKey 100 in
  let env := Fixture.aggregateDown Fixture.success 1000 in
  let p := Fixture.candidateABC "INITIATOR1" in
  let w := Fixture.worldWith [Fixture.signedRecord "OLD" 100] in
  let out := MultisigCosignatory.automaticTransactionSigningHandler
               (sdk := Fixture.sdk) (js := Fixture.js) (db := Fixture.db)
               i env p w in
  out = MultisigCosignatory.signAndSave (sdk := Fixture.sdk) i env p
          (Some 10%float) w /\
  map MultisigCosignatory.amountXEM
    (MultisigCosignatory.signedTransactions (snd out))
  = [Some 100%float; Some 10%float] /\
  gtq (sumAmountXEM (Database := Fixture.db)
         (map MultisigCosignatory.amountXEM
            (MultisigCosignatory.signedTransactions (snd out))))
      (dailyAmount (MultisigCosignatory.config i)) = true.
Proof.
  cbv zeta. split; [| split; reflexivity].
  apply (aggregate_failure_limits_candidate_alone (sdk := Fixture.sdk)
           (js := Fixture.js) (db := Fixture.db)
           (Fixture.instance Fixture.goodKey 100)
           (Fixture.aggregateDown Fixture.success 1000)
           (Fixture.candidateABC "INITIATOR1") (Some 10%float)
           "aggregate timed out"
           (Fixture.worldWith [Fixture.signedRecord "OLD" 100])
           eq_refl eq_refl eq_refl eq_refl eq_refl).
Defined.

(** With the multisig address written TBOT-MSIG the end-to-end candidate
    is neither announced nor stored. *)
Lemma hyphenated_multisig_address_blocks_signing_witness :
  let out := MultisigCosignatory.automaticTransactionSigningHandler
               (sdk := Fixture.sdk) (js := Fixture.js) (db := Fixture.db)
               Fixture.hyphenInstance
               (Fixture.env Fixture.success 1000)
               (Fixture.candidateABC "INITIATOR1") Fixture.emptyWorld in
  hasHyphen (multisigAddress (MultisigCosignatory.config Fixture.hyphenInstance))
  = true /\
  MultisigCosignatory.signedTransactions (snd out) = [] /\
  MultisigCosignatory.announced (snd out) = [].
Proof.
  cbv zeta. split; [reflexivity |].
  exact (proj2 (hyphenated_multisig_address_blocks_signing
                  (sdk := Fixture.sdk) (js := Fixture.js) (db := Fixture.db)
                  Fixture.hyphenInstance eq_refl)
           (Fixture.env Fixture.success 1000)
           (Fixture.candidateABC "INITIATOR1") Fixture.emptyWorld).
Defined.

(** The end-to-end candidate is signed when it is pushed and skipped when
    it is polled. *)
Lemma fallback_poll_skips_pairs_witness :
  let i := Fixture.instance Fixture.goodKey 100 in
  let p := Fixture.candidateABC "INITIATOR1" in
  let polled := MultisigCosignatory.websocketFallbackHandler (sdk := Fixture.sdk) i
                  (MultisigCosignatory.UnconfirmedResolved [Fixture.polled p])
                  Fixture.pollWorld in
  length (MultisigCosignatory.signedTransactions
            (snd (MultisigCosignatory.unconfirmedListener
                    (sdk := Fixture.sdk) (js := Fixture.js) (db := Fixture.db)
                    i (Fixture.env Fixture.success 1000) p Fixture.emptyWorld)))
  = 1%nat /\
  fst polled = Ok [] /\
  MultisigCosignatory.signing (snd polled) = Fixture.emptyWorld.
Proof.
  cbv zeta. split; [reflexivity |].
  rewrite (fallback_poll_skips_pairs (sdk := Fixture.sdk)
             (Fixture.instance Fixture.goodKey 100)
             [Fixture.polled (Fixture.candidateABC "INITIATOR1")]
             Fixture.pollWorld).
  - split; reflexivity.
  - intros e [<- | []]. reflexivity.
Defined.

(** Two runs for the end-to-end candidate in flight, the one started by
    the push and the one started by the poll, each callback of the first
    followed by the same callback of the second: both lookups find
    nothing, both announce, and both SUCCESS replies store a record, so
    that the hash has two records. *)
Lemma two_runs_in_flight_store_twice :
  let i := Fixture.instance Fixture.goodKey 100 in
  let p := Fixture.candidateABC "INITIATOR1" in
  let out := MultisigCosignatory.inFlight
               (sdk := Fixture.sdk) (js := Fixture.js) (db := Fixture.db) i
               (Fixture.env Fixture.success 1000)
               (Fixture.env Fixture.success 1001) p p
               [true; false; true; false; true; false]
               MultisigCosignatory.AwaitFindOne MultisigCosignatory.AwaitFindOne
               Fixture.emptyWorld in
  fst out = Ok (MultisigCosignatory.Finished, MultisigCosignatory.Finished) /\
  length (MultisigCosignatory.recordsFor (Some "ABC") (snd out)) = 2%nat /\
  length (MultisigCosignatory.announced (snd out)) = 2%nat.
Proof. cbv zeta. repeat split. Qed.

(** Two candidates of 60 under a ceiling of 100, their runs in flight in
    the same way: each is checked against an empty store, both are
    signed, and 120 is stored. *)
Lemma two_runs_in_flight_pass_ceiling :
  let i := Fixture.instance Fixture.goodKey 100 in
  let out := MultisigCosignatory.inFlight
               (sdk := Fixture.sdk) (js := Fixture.js) (db := Fixture.db) i
               (Fixture.env Fixture.success 1000)
               (Fixture.env Fixture.success 1001)
               (Fixture.candidate "ONE" "INITIATOR1" 60)
               (Fixture.candidate "TWO" "INITIATOR1" 60)
               [true; false; true; false; true; false]
               MultisigCosignatory.AwaitFindOne MultisigCosignatory.AwaitFindOne
               Fixture.emptyWorld in
  sumAmountXEM (Database := Fixture.db)
    (map MultisigCosignatory.amountXEM
       (MultisigCosignatory.signedTransactions (snd out))) = 120%float.
Proof. reflexivity. Qed.

(** Three nodes, alice in use, draws 0.1, 0.2, 0.9: the third draw reads
    bob, and bob is installed. *)
Lemma selectLoop_ends_at_first_other_witness :
  BlocksAuditor.selectLoop 3 Fixture.thirdDrawHigh 0
    [Fixture.nodeA; Fixture.nodeB; Fixture.nodeC] "alice"
  = BlocksAuditor.Selected "bob" 7890.
Proof.
  apply (selectLoop_ends_at_first_other 2 Fixture.thirdDrawHigh
           [Fixture.nodeA; Fixture.nodeB; Fixture.nodeC] "alice" Fixture.nodeB 0 3).
  - intros j Hj. exists Fixture.nodeA.
    destruct j as [| [| j]]; [split; reflexivity | split; reflexivity | lia].
  - reflexivity.
  - intros H. discriminate H.
  - lia.
Defined.

Lemma autoSwitch_installs_other_node_witness :
  exists w',
    BlocksAuditor.autoSwitchSocketNode Fixture.auditor3 3 Fixture.thirdDrawHigh
      (Fixture.auditorWorld []) = Some (Ok tt, w') /\
    BlocksAuditor.node_ w' = Fixture.nodeB /\
    In (BlocksAuditor.node_ w') (BlocksAuditor.nodesList Fixture.auditor3) /\
    host (BlocksAuditor.node_ w') <> "alice"%string.
Proof.
  eexists. split; [reflexivity |]. split; [reflexivity |].
  destruct (autoSwitch_installs_other_node Fixture.auditor3 3 Fixture.thirdDrawHigh
              (Fixture.auditorWorld []) _ eq_refl) as (Hin & Hne & _).
  split; [exact Hin | exact Hne].
Defined.



(** Height 1000 delivered again at 400 s: the check at 500 s starts the
    switch, as it would have without the delivery. *)
Lemma repeated_height_does_not_refresh_witness :
  let w := Fixture.auditorWorld [Fixture.heightAt 1000 0] in
  let w1 := snd (BlocksAuditor.deliverHeight BlocksAuditor.Push Fixture.auditor
                   (Fixture.auditorEnv None 400000) 1000 w) in
  BlocksAuditor.blockHeights w1 = [Fixture.heightAt 1000 0] /\
  exists added,
    BlocksAuditor.effects
      (snd (BlocksAuditor.aliveIntervalTick Fixture.auditor
              (Fixture.auditorEnv None 500000) w1))
    = BlocksAuditor.effects w1 ++ added /\
    BlocksAuditor.effects
      (snd (BlocksAuditor.aliveIntervalTick Fixture.auditor
              (Fixture.auditorEnv None 500000) w))
    = BlocksAuditor.effects w ++ added.
Proof.
  cbv zeta.
  apply (repeated_height_does_not_refresh Fixture.auditor BlocksAuditor.Push
           (Fixture.auditorEnv None 400000) (Fixture.auditorEnv None 500000) 1000
           (Fixture.auditorWorld [Fixture.heightAt 1000 0])).
  intros H. discriminate H.
Defined.

(** Connected, dropped, connected again, refused: three requests to
    connect follow, and the feed of unconfirmed transactions is never
    subscribed. *)
Lemma cosignatory_never_subscribes_unconfirmed_witness :
  let i := Fixture.instance Fixture.goodKey 100 in
  let events := [Connection.Established;
                 Connection.SocketError "Lost connection to alice:7778";
                 Connection.Established;
                 Connection.SocketError "ECONNREFUSED"] in
  let out := Connection.session Connection.cosignatoryModule i events
               Fixture.disconnected in
  Connection.nemSubscriptions_ (snd out) = ["/errors"%string] /\
  Connection.countConnects (Connection.effects (snd out)) = 3%nat /\
  Connection.auditor_ (snd out) = false.
Proof.
  cbv zeta. split; [reflexivity |].
  destruct (cosignatory_never_subscribes_unconfirmed
              (Fixture.instance Fixture.goodKey 100)
              [Connection.Established;
               Connection.SocketError "Lost connection to alice:7778";
               Connection.Established;
               Connection.SocketError "ECONNREFUSED"]
              Fixture.disconnected (fun H : False => H))
    as (_ & _ & Haud & Hcount).
  split; [exact Hcount | exact Haud].
Defined.

(** ** multisig-cosignatory.js: the accepting path *)

Section CosignatoryAccepts.
Context {sdk : NemSDK} {js : JSEngine} {db : Database}.
Import MultisigCosignatory.

(** X8.  A ceiling that is not above zero switches the limit off: a
    candidate without a record goes on to signing whatever is stored and
    whatever its amount. *)
Theorem nonpositive_ceiling_never_limits (instance : Instance) (env : Env)
    (p : TransactionMetaDataPair) (a : option float) (w : World) :
  gtq (dailyAmount (config instance)) 0 = false ->
  findOneResult (findOneErr env) (Service.getTransactionHash p true) w
  = (None, None) ->
  Service.getTransactionAmountXEM p = Ok a ->
  automaticTransactionSigningHandler instance env p w
  = signAndSave instance env p a w.
Proof.
  intros HC Hfind Ha. rewrite handler_run, Hfind.
  now apply no_ceiling_no_limit.
Qed.


End CosignatoryAccepts.

(** A ceiling of 0: the candidate of 10 goes on to signing with 100
    stored. *)
Lemma nonpositive_ceiling_never_limits_witness :
  let i := Fixture.instance Fixture.goodKey 0 in
  let env := Fixture.env Fixture.success 1000 in
  let p := Fixture.candidateABC "INITIATOR1" in
  let w := Fixture.worldWith [Fixture.signedRecord "OLD" 100] in
  gtq (dailyAmount (MultisigCosignatory.config i)) 0 = false /\
  MultisigCosignatory.automaticTransactionSigningHandler
    (sdk := Fixture.sdk) (js := Fixture.js) (db := Fixture.db) i env p w
  = MultisigCosignatory.signAndSave (sdk := Fixture.sdk) i env p
      (Some 10%float) w /\
  length (MultisigCosignatory.signedTransactions
            (snd (MultisigCosignatory.automaticTransactionSigningHandler
                    (sdk := Fixture.sdk) (js := Fixture.js) (db := Fixture.db)
                    i env p w))) = 2%nat.
Proof.
  cbv zeta. split; [reflexivity |]. split; [| reflexivity].
  apply (nonpositive_ceiling_never_limits
           (sdk := Fixture.sdk) (js := Fixture.js) (db := Fixture.db)
           (Fixture.instance Fixture.goodKey 0) (Fixture.env Fixture.success 1000)
           (Fixture.candidateABC "INITIATOR1") (Some 10%float)
           (Fixture.worldWith [Fixture.signedRecord "OLD" 100])).
  - reflexivity.
  - reflexivity.
  - reflexivity.
Defined.

